(** * gym.py: the fallback planner, the de-duplication pass, the exercise
      source and the AI plan requester

    A shallow embedding of [src/gym.py].  Python dictionaries that come from
    outside (the user profile, the exercise records) are finite maps from
    strings to dynamically typed values, so that a missing key or a value of
    the wrong type raises exactly where the Python code raises.  The plan the
    fallback generator builds is a dictionary literal with fixed keys and is
    modelled as a record; its [weekly_schedule] is an insertion-ordered
    dictionary.

    Streamlit notices ([st.warning]) and the progress widgets have no effect
    on the values computed and are left out.  Strings are byte strings:
    the case conversions below are Python's on ASCII text and leave other
    bytes alone. *)

From stdpp Require Import gmap strings list pretty.
From Stdlib Require Import ZArith Ascii String.

Open Scope string_scope.
Open Scope list_scope.

#[local] Set Warnings "-register-all".

(** ** Python values, exceptions and the error monad *)

Inductive pyval : Type :=
  | VNone
  | VInt (z : Z)
  | VStr (s : string)
  | VList (l : list string).

Global Instance pyval_eq_dec : EqDecision pyval.
Proof. solve_decision. Defined.

Definition pyval_enc (v : pyval) : () + Z + string + list string :=
  match v with
  | VNone => inl (inl (inl ()))
  | VInt z => inl (inl (inr z))
  | VStr s => inl (inr s)
  | VList l => inr l
  end.

Definition pyval_dec (x : () + Z + string + list string) : pyval :=
  match x with
  | inl (inl (inl _)) => VNone
  | inl (inl (inr z)) => VInt z
  | inl (inr s) => VStr s
  | inr l => VList l
  end.

Global Instance pyval_countable : Countable pyval.
Proof.
  apply (inj_countable' pyval_enc pyval_dec).
  by intros [].
Defined.

Inductive exn : Type :=
  | KeyError (key : string)
  | TypeError
  | AttributeError
  | JSONDecodeError
  | ServiceError.

Global Instance exn_eq_dec : EqDecision exn.
Proof. solve_decision. Defined.

Inductive result (A : Type) : Type :=
  | Ok (a : A)
  | Raise (e : exn).
Arguments Ok {A} a.
Arguments Raise {A} e.

Global Instance result_ret : MRet result := λ A a, Ok a.
Global Instance result_bind : MBind result := λ A B f m,
  match m with
  | Ok a => f a
  | Raise e => Raise e
  end.
Global Instance result_fmap : FMap result := λ A B f m,
  match m with
  | Ok a => Ok (f a)
  | Raise e => Raise e
  end.

(** [[f x for x in l]] where [f] may raise: the first failure, in list
    order, is the one that propagates. *)
Fixpoint traverse {A B : Type} (f : A → result B) (l : list A) : result (list B) :=
  match l with
  | [] => Ok []
  | x :: l' => y ← f x; ys ← traverse f l'; Ok (y :: ys)
  end.

(** [for x in l: acc = f acc x] with a body that may raise. *)
Fixpoint for_each {A S : Type} (f : S → A → result S) (acc : S) (l : list A) : result S :=
  match l with
  | [] => Ok acc
  | x :: l' => acc' ← f acc x; for_each f acc' l'
  end.

(** A dictionary received from outside. *)
Abbreviation pydict := (gmap string pyval).

(** [d.get(k, default)] *)
Definition dict_get (d : pydict) (k : string) (dflt : pyval) : pyval :=
  default dflt (d !! k).

(** [d[k]] *)
Definition dict_item (d : pydict) (k : string) : result pyval :=
  match d !! k with
  | Some v => Ok v
  | None => Raise (KeyError k)
  end.

(** Truthiness of a value, as tested by [if v:]. *)
Definition truthy (v : pyval) : bool :=
  match v with
  | VNone => false
  | VInt z => negb (z =? 0)%Z
  | VStr s => negb (String.eqb s "")
  | VList l => match l with [] => false | _ => true end
  end.

(** ** Python string methods, on ASCII text *)

Module PyStr.

Definition is_upper (c : ascii) : bool :=
  let n := N_of_ascii c in (65 <=? n)%N && (n <=? 90)%N.

Definition is_lower (c : ascii) : bool :=
  let n := N_of_ascii c in (97 <=? n)%N && (n <=? 122)%N.

Definition is_cased (c : ascii) : bool := is_upper c || is_lower c.

Definition lower_char (c : ascii) : ascii :=
  if is_upper c then ascii_of_N (N_of_ascii c + 32) else c.

Definition upper_char (c : ascii) : ascii :=
  if is_lower c then ascii_of_N (N_of_ascii c - 32) else c.

(** [s.lower()] *)
Fixpoint lower (s : string) : string :=
  match s with
  | EmptyString => EmptyString
  | String c s' => String (lower_char c) (lower s')
  end.

(** [s.title()]: a cased character that follows an uncased one is
    upper-cased, every other cased character is lower-cased. *)
Fixpoint title_from (prev_cased : bool) (s : string) : string :=
  match s with
  | EmptyString => EmptyString
  | String c s' =>
      String (if prev_cased then lower_char c else upper_char c)
             (title_from (is_cased c) s')
  end.

Definition title (s : string) : string := title_from false s.

(** [s.replace(old, new)] for a non-empty [old]: occurrences are replaced
    from the left and do not overlap.  [skip] counts the characters of an
    occurrence already replaced that are still to be dropped. *)
Fixpoint replace_from (skip : nat) (old new s : string) : string :=
  match s with
  | EmptyString => EmptyString
  | String c s' =>
      match skip with
      | S k => replace_from k old new s'
      | O =>
          if String.prefix old s
          then new +:+ replace_from (String.length old - 1) old new s'
          else String c (replace_from 0 old new s')
      end
  end.

Definition replace (old new s : string) : string := replace_from 0 old new s.

(** The ASCII characters for which [isspace()] holds. *)
Definition is_space (c : ascii) : bool :=
  let n := N_of_ascii c in
  ((9 <=? n)%N && (n <=? 13)%N) || ((28 <=? n)%N && (n <=? 32)%N).

Fixpoint lstrip (s : string) : string :=
  match s with
  | EmptyString => EmptyString
  | String c s' => if is_space c then lstrip s' else s
  end.

(** Drop trailing white space: a character is kept when it is not white
    space or when something is kept after it. *)
Fixpoint rstrip (s : string) : string :=
  match s with
  | EmptyString => EmptyString
  | String c s' =>
      match rstrip s' with
      | EmptyString => if is_space c then EmptyString else String c EmptyString
      | r => String c r
      end
  end.

(** [s.strip()] *)
Definition strip (s : string) : string := rstrip (lstrip s).

(** [s.startswith(p)] *)
Definition startswith (s p : string) : bool := String.prefix p s.

(** [s.find(c)] for a one-character needle: the first index, or -1. *)
Fixpoint find (c : ascii) (s : string) : Z :=
  match s with
  | EmptyString => -1
  | String c' s' =>
      if Ascii.eqb c' c then 0
      else let i := find c s' in if (i =? -1)%Z then -1 else (i + 1)%Z
  end.

(** [s.rfind(c)]: the last index, or -1. *)
Fixpoint rfind (c : ascii) (s : string) : Z :=
  match s with
  | EmptyString => -1
  | String c' s' =>
      let i := rfind c s' in
      if (i =? -1)%Z then (if Ascii.eqb c' c then 0 else -1)%Z else (i + 1)%Z
  end.

(** An index of a slice, brought into [0 .. len]. *)
Definition clamp (len i : Z) : Z :=
  if (i <? 0)%Z then Z.max (i + len) 0 else Z.min i len.

(** [s[a:b]] *)
Definition slice (s : string) (a b : Z) : string :=
  let len := Z.of_nat (String.length s) in
  let a' := clamp len a in
  let b' := clamp len b in
  substring (Z.to_nat a') (Z.to_nat (b' - a')) s.

(** [needle in s] *)
Fixpoint contains (needle s : string) : bool :=
  String.prefix needle s ||
  match s with
  | EmptyString => false
  | String _ s' => contains needle s'
  end.

End PyStr.

(** ** The plan built by the fallback generator *)

Record PlannedExercise : Type := {
  name : pyval;
  sets : Z;
  reps : string;
  rest : string;
  notes : string
}.

Record DaySchedule : Type := {
  focus : string;
  exercises : list PlannedExercise
}.

(** The [exercises] field, under a name that an argument called
    [exercises] does not hide. *)
Abbreviation day_exercises := exercises.

(** An insertion-ordered dictionary with string keys: assigning to a key
    that is present replaces its value in place, assigning to a new key
    appends it. *)
Abbreviation odict V := (list (string * V)).

Fixpoint odict_set {V : Type} (d : odict V) (k : string) (v : V) : odict V :=
  match d with
  | [] => [(k, v)]
  | (k', v') :: d' =>
      if decide (k' = k) then (k, v) :: d' else (k', v') :: odict_set d' k v
  end.

Definition odict_keys {V : Type} (d : odict V) : list string := d.*1.

Record WorkoutPlan : Type := {
  plan_name : string;
  overview : string;
  weekly_schedule : odict DaySchedule;
  progression_tips : list string;
  success_tips : list string
}.

(** The receiver of a string method must be a string. *)
Definition as_str (v : pyval) : result string :=
  match v with
  | VStr s => Ok s
  | _ => Raise AttributeError
  end.

(** The left operand of [_ + 1] that [range] accepts must be an integer. *)
Definition as_int (v : pyval) : result Z :=
  match v with
  | VInt z => Ok z
  | _ => Raise TypeError
  end.

(** [[x for x in l if p x]] where the condition may raise. *)
Fixpoint select {A : Type} (p : A → result bool) (l : list A) : result (list A) :=
  match l with
  | [] => Ok []
  | x :: l' => b ← p x; r ← select p l'; Ok (if b : bool then x :: r else r)
  end.

(** ** The exercise source *)

Module ExerciseAPI.

(** A record of the local table, lines 117-196. *)
Definition record (name type muscle equipment difficulty instructions : string) : pydict :=
  {[ "name" := VStr name; "type" := VStr type; "muscle" := VStr muscle;
     "equipment" := VStr equipment; "difficulty" := VStr difficulty;
     "instructions" := VStr instructions ]}.

Definition catalog : list pydict :=
  [ record "Push-ups" "strength" "chest" "body_only" "beginner"
      "Start in plank position. Lower body until chest nearly touches floor. Push back up to start position.";
    record "Squats" "strength" "quadriceps" "body_only" "beginner"
      "Stand with feet shoulder-width apart. Lower body by bending knees and hips. Return to starting position.";
    record "Plank" "strength" "abdominals" "body_only" "beginner"
      "Hold a push-up position with forearms on ground. Keep body straight from head to heels.";
    record "Lunges" "strength" "quadriceps" "body_only" "intermediate"
      "Step forward with one leg, lowering hips until both knees are bent at 90 degrees. Return to start.";
    record "Burpees" "cardio" "full_body" "body_only" "intermediate"
      "From standing, drop to squat, jump back to plank, do push-up, jump forward to squat, jump up.";
    record "Mountain Climbers" "cardio" "abdominals" "body_only" "intermediate"
      "Start in plank position. Alternate bringing knees to chest in running motion.";
    record "Deadlifts" "strength" "hamstrings" "barbell" "intermediate"
      "Stand with barbell at feet. Bend at hips and knees to lower bar. Stand up by extending hips and knees.";
    record "Pull-ups" "strength" "lats" "pull_up_bar" "intermediate"
      "Hang from pull-up bar with palms facing away. Pull body up until chin clears bar.";
    record "Bicep Curls" "strength" "biceps" "dumbbell" "beginner"
      "Hold dumbbells at sides. Curl weights up by flexing biceps. Lower slowly to start.";
    record "Tricep Dips" "strength" "triceps" "body_only" "beginner"
      "Sit on chair edge, hands gripping seat. Lower body by bending arms, then push back up." ].

(** The condition of the comprehension at line 200:
    [muscle_group.lower() in ex['muscle'].lower()]. *)
Definition muscle_matches (muscle_group : string) (ex : pydict) : result bool :=
  m ← dict_item ex "muscle";
  m_s ← as_str m;
  Ok (PyStr.contains (PyStr.lower muscle_group) (PyStr.lower m_s)).

(** Lines 114-202.  The parameter is annotated [str = None]; [if
    muscle_group:] is false for [None] and for the empty string. *)
Definition get_fallback_exercises (muscle_group : option string) : result (list pydict) :=
  match muscle_group with
  | Some g =>
      if truthy (VStr g) then select (muscle_matches g) catalog else Ok catalog
  | None => Ok catalog
  end.

(** What happens inside the [try] of lines 93-108 before a value is
    returned: reading the secret or [requests.get] raises, or a response
    arrives with a status code and a body that [response.json()] decodes or
    fails to decode. *)
Inductive http_outcome : Type :=
  | RequestRaises (e : exn)
  | Response (status_code : Z) (json_body : result (list pydict)).

(** Lines 91-111.  [http_get] is the remote catalog: it receives the value
    of the [muscle] query parameter, if one is set.  The memoising
    decorator replays the value of an earlier call with the same argument
    for an hour; this is the function it wraps. *)
(** Lines 98-100: the [muscle] entry of [params], if one is set. *)
Definition muscle_param (muscle_group : option string) : option string :=
  match muscle_group with
  | Some g => if truthy (VStr g) then Some (PyStr.lower g) else None
  | None => None
  end.

(** The outcomes on which no remote list is returned: an exception, a
    status other than 200, or a body that does not decode. *)
Definition failed (outcome : http_outcome) : Prop :=
  match outcome with
  | RequestRaises _ => True
  | Response status_code json_body =>
      status_code ≠ 200%Z ∨ ∃ e, json_body = Raise e
  end.

Definition fetch_exercises_ninja_api
    (http_get : option string → http_outcome) (muscle_group : option string)
  : result (list pydict) :=
  match http_get (muscle_param muscle_group) with
  | RequestRaises _ => get_fallback_exercises muscle_group
  | Response status_code json_body =>
      if (status_code =? 200)%Z then
        match json_body with
        | Ok l => Ok l
        | Raise _ => get_fallback_exercises muscle_group
        end
      else get_fallback_exercises muscle_group
  end.

End ExerciseAPI.

(** ** Decoded JSON *)

Inductive json : Type :=
  | JNull
  | JBool (b : bool)
  | JNum (z : Z)
  | JStr (s : string)
  | JArr (l : list json)
  | JObj (m : list (string * json)).

(** What [generate_workout_plan] hands back: the decoded reply of the
    service, whatever its shape, or the plan of the fallback generator. *)
Inductive plan_value : Type :=
  | FromAI (plan : json)
  | FromFallback (plan : WorkoutPlan).

Module WorkoutAI.

(** The condition of the comprehension at lines 319-322:
    [ex['difficulty'] == experience or experience == 'advanced'].  The
    subscript is the left operand of [or], so it is evaluated for every
    record, whatever the experience is. *)
Definition is_suitable (experience : pyval) (ex : pydict) : result bool :=
  difficulty ← dict_item ex "difficulty";
  Ok (bool_decide (difficulty = experience)
      || bool_decide (experience = VStr "advanced")).

(** Lines 319-325. *)
Definition suitable_exercises (experience : pyval) (exercises : list pydict)
  : result (list pydict) :=
  filtered ← select (is_suitable experience) exercises;
  Ok (match filtered with [] => exercises | _ => filtered end).

(** Lines 349-354. *)
Definition sets_reps_rest (experience : pyval) : Z * string * string :=
  if decide (experience = VStr "beginner") then (2%Z, "8-12", "90 seconds")
  else if decide (experience = VStr "intermediate") then (3%Z, "10-15", "60 seconds")
  else (3%Z, "12-20", "45 seconds").

(** One element of the comprehension at lines 358-367. *)
Definition planned (srr : Z * string * string) (ex : pydict) : result PlannedExercise :=
  n ← dict_item ex "name";
  Ok {| name := n; sets := srr.1.1; reps := srr.1.2; rest := srr.2;
        notes := "Focus on proper form" |}.

Definition day_key (day : Z) : string := "day_" +:+ pretty day.

(** The body of the loop at lines 346-368: the key assigned and its value. *)
Definition day_workout (experience : pyval) (suitable : list pydict) (day : Z)
  : result (string * DaySchedule) :=
  let selected_exercises := take 4 suitable in
  exs ← traverse (planned (sets_reps_rest experience)) selected_exercises;
  Ok (day_key day,
      {| focus := if (day <=? 3)%Z then "Full Body" else "Active Recovery";
         exercises := exs |}).

Definition the_progression_tips : list string :=
  [ "Increase weight/reps by 5-10% when you can complete all sets easily";
    "Focus on proper form before increasing intensity";
    "Rest at least one day between intense workouts" ].

Definition the_success_tips : list string :=
  [ "Stay consistent with your schedule";
    "Track your progress";
    "Listen to your body and rest when needed";
    "Stay hydrated and eat well" ].

(** Lines 312-370.  The three [get] calls cannot raise.  The comprehension
    comes first; then the dictionary literal calls [experience.title()] and
    [goal.replace(..)], which need strings; then [range(1, days_per_week + 1)]
    needs an integer.  Formatting [days_per_week] into the overview cannot
    raise, and the overview is only returned when [days_per_week] is an
    integer, so it is formatted here once that is known. *)
Definition _generate_fallback_plan (user_profile : pydict) (exercises : list pydict)
  : result WorkoutPlan :=
  let days_per_week := dict_get user_profile "days_per_week" (VInt 3) in
  let experience := dict_get user_profile "experience" (VStr "beginner") in
  let goal := dict_get user_profile "goal" (VStr "general_fitness") in
  suitable ← suitable_exercises experience exercises;
  experience_s ← as_str experience;
  goal_s ← as_str goal;
  days ← as_int days_per_week;
  schedule ← for_each
    (λ sched day,
       kv ← day_workout experience suitable day;
       Ok (odict_set sched kv.1 kv.2))
    [] (seqZ 1 days);
  Ok {| plan_name :=
          "Custom " +:+ PyStr.title experience_s +:+ " "
          +:+ PyStr.title (PyStr.replace "_" " " goal_s) +:+ " Plan";
        overview :=
          "A " +:+ pretty days +:+ "-day per week workout plan focused on "
          +:+ PyStr.replace "_" " " goal_s;
        weekly_schedule := schedule;
        progression_tips := the_progression_tips;
        success_tips := the_success_tips |}.

(** The values interpolated into one line of the summary, lines 222-226. *)
Definition summary_line (ex : pydict) : result (list pyval) :=
  n ← dict_item ex "name";
  t ← dict_item ex "type";
  m ← dict_item ex "muscle";
  d ← dict_item ex "difficulty";
  e ← dict_item ex "equipment";
  Ok [n; t; m; d; e].

Definition exercise_summary (exercises : list pydict) : result (list (list pyval)) :=
  traverse summary_line (take 20 exercises).

(** The profile values interpolated into the prompt, lines 232-237. *)
Definition prompt_profile (user_profile : pydict) : list pyval :=
  [ dict_get user_profile "goal" (VStr "general fitness");
    dict_get user_profile "experience" (VStr "beginner");
    dict_get user_profile "days_per_week" (VInt 3);
    dict_get user_profile "duration" (VInt 45);
    dict_get user_profile "equipment" (VStr "bodyweight only");
    dict_get user_profile "focus_areas" (VList ["full body"]) ].

(** The generative service: the prompt is fixed text around the profile
    values and the summary lines, so the service is a function of those.
    It yields [response.text] or raises. *)
Definition service : Type := list pyval → list (list pyval) → result string.

(** Lines 287-290. *)
Definition strip_fences (plan_text : string) : string :=
  if PyStr.startswith plan_text "```json" then
    PyStr.strip (PyStr.replace "```" "" (PyStr.replace "```json" "" plan_text))
  else if PyStr.startswith plan_text "```" then
    PyStr.strip (PyStr.replace "```" "" plan_text)
  else plan_text.

Section Requester.

(** [json.loads] *)
Variable json_loads : string → result json.

(** Lines 284-306, for a reply [text] of the service. *)
Definition parse_reply (user_profile : pydict) (exercises : list pydict)
    (text : string) : result plan_value :=
  let plan_text := strip_fences (PyStr.strip text) in
  let start_idx := PyStr.find "{" plan_text in
  let end_idx := (PyStr.rfind "}" plan_text + 1)%Z in
  if negb (start_idx =? -1)%Z && negb (end_idx =? -1)%Z then
    let json_str := PyStr.slice plan_text start_idx end_idx in
    plan ← json_loads json_str;
    Ok (FromAI plan)
  else
    match json_loads plan_text with
    | Ok plan => Ok (FromAI plan)
    | Raise _ => FromFallback <$> _generate_fallback_plan user_profile exercises
    end.

(** Lines 215-310.  [model] is [self.model]: [None] when no key is
    configured. *)
Definition generate_workout_plan (model : option service)
    (user_profile : pydict) (exercises : list pydict) : result plan_value :=
  match model with
  | None => FromFallback <$> _generate_fallback_plan user_profile exercises
  | Some generate_content =>
      let attempt :=
        summary ← exercise_summary exercises;
        text ← generate_content (prompt_profile user_profile) summary;
        parse_reply user_profile exercises text in
      match attempt with
      | Ok plan => Ok plan
      | Raise _ => FromFallback <$> _generate_fallback_plan user_profile exercises
      end
  end.

End Requester.

End WorkoutAI.

(** ** A concrete JSON decoder

    [generate_workout_plan] is stated over any [json.loads].  Where a reply
    has to be decoded on a concrete text, this recursive-descent decoder is
    used.  It decodes objects, arrays, escape-free strings, integers and the
    literals [null], [true] and [false], with white space between tokens, and
    rejects everything else; a repeated key of an object keeps its first
    position and its last value, as a Python [dict] does. *)

Module MiniJson.

Definition dquote : ascii := ascii_of_N 34.
Definition backslash : ascii := ascii_of_N 92.

Definition is_ws (c : ascii) : bool :=
  let n := N_of_ascii c in
  (n =? 32)%N || (n =? 9)%N || (n =? 10)%N || (n =? 13)%N.

Fixpoint skip_ws (s : string) : string :=
  match s with
  | EmptyString => EmptyString
  | String c s' => if is_ws c then skip_ws s' else s
  end.

Definition is_digit (c : ascii) : bool :=
  let n := N_of_ascii c in (48 <=? n)%N && (n <=? 57)%N.

(** The digits at the front of [s], read in base ten onto [acc], and what
    follows them. *)
Fixpoint digits (acc : Z) (s : string) : Z * string :=
  match s with
  | EmptyString => (acc, EmptyString)
  | String c s' =>
      if is_digit c
      then digits (10 * acc + Z.of_N (N_of_ascii c - 48))%Z s'
      else (acc, s)
  end.

(** A natural number without a leading zero, not followed by a fraction
    or an exponent. *)
Definition natural (s : string) : option (Z * string) :=
  match s with
  | String c s' =>
      if is_digit c then
        let '(z, r) := if (N_of_ascii c =? 48)%N then (0%Z, s') else digits 0 s in
        match r with
        | String c' _ =>
            if is_digit c' || Ascii.eqb c' "." || Ascii.eqb c' "e" || Ascii.eqb c' "E"
            then None else Some (z, r)
        | EmptyString => Some (z, r)
        end
      else None
  | EmptyString => None
  end.

(** The characters up to the closing quote, and what follows it. *)
Fixpoint string_body (s : string) : option (string * string) :=
  match s with
  | EmptyString => None
  | String c s' =>
      if Ascii.eqb c dquote then Some (EmptyString, s')
      else if Ascii.eqb c backslash || (N_of_ascii c <? 32)%N then None
      else match string_body s' with
           | Some (b, r) => Some (String c b, r)
           | None => None
           end
  end.

Definition literal (word : string) (v : json) (s : string) : option (json * string) :=
  if String.prefix word s
  then Some (v, substring (String.length word) (String.length s) s)
  else None.

Fixpoint value (fuel : nat) (s : string) : option (json * string) :=
  match fuel with
  | O => None
  | S f =>
      match skip_ws s with
      | EmptyString => None
      | String c r =>
          if Ascii.eqb c "{" then
            match skip_ws r with
            | String "}" r' => Some (JObj [], r')
            | _ => match members f [] r with
                   | Some (m, r') => Some (JObj m, r')
                   | None => None
                   end
            end
          else if Ascii.eqb c "[" then
            match skip_ws r with
            | String "]" r' => Some (JArr [], r')
            | _ => match elements f [] r with
                   | Some (l, r') => Some (JArr l, r')
                   | None => None
                   end
            end
          else if Ascii.eqb c dquote then
            match string_body r with
            | Some (b, r') => Some (JStr b, r')
            | None => None
            end
          else if Ascii.eqb c "-" then
            match natural r with
            | Some (z, r') => Some (JNum (- z), r')
            | None => None
            end
          else if is_digit c then
            match natural (String c r) with
            | Some (z, r') => Some (JNum z, r')
            | None => None
            end
          else if Ascii.eqb c "n" then literal "null" JNull (String c r)
          else if Ascii.eqb c "t" then literal "true" (JBool true) (String c r)
          else if Ascii.eqb c "f" then literal "false" (JBool false) (String c r)
          else None
      end
  end
with elements (fuel : nat) (acc : list json) (s : string) : option (list json * string) :=
  match fuel with
  | O => None
  | S f =>
      match value f s with
      | Some (v, r) =>
          match skip_ws r with
          | String "," r' => elements f (acc ++ [v])%list r'
          | String "]" r' => Some ((acc ++ [v])%list, r')
          | _ => None
          end
      | None => None
      end
  end
with members (fuel : nat) (acc : odict json) (s : string) : option (odict json * string) :=
  match fuel with
  | O => None
  | S f =>
      match skip_ws s with
      | String c r =>
          if Ascii.eqb c dquote then
            match string_body r with
            | Some (k, r1) =>
                match skip_ws r1 with
                | String ":" r2 =>
                    match value f r2 with
                    | Some (v, r3) =>
                        match skip_ws r3 with
                        | String "," r4 => members f (odict_set acc k v) r4
                        | String "}" r4 => Some (odict_set acc k v, r4)
                        | _ => None
                        end
                    | None => None
                    end
                | _ => None
                end
            | None => None
            end
          else None
      | EmptyString => None
      end
  end.

(** The whole text must be one value, white space apart. *)
Definition loads (s : string) : result json :=
  match value (2 * String.length s + 2) s with
  | Some (v, r) =>
      match skip_ws r with
      | EmptyString => Ok v
      | _ => Raise JSONDecodeError
      end
  | None => Raise JSONDecodeError
  end.

End MiniJson.

(** ** The de-duplication pass of [main] *)

(** A member of a [set] must be hashable; a list is not. *)
Definition hashable (v : pyval) : result pyval :=
  match v with
  | VList _ => Raise TypeError
  | _ => Ok v
  end.

(** The body of the loop at lines 457-460, on the pair
    [(seen_names, unique_exercises)]. *)
Definition dedup_step (st : gset pyval * list pydict) (ex : pydict)
  : result (gset pyval * list pydict) :=
  n ← dict_item ex "name";
  n ← hashable n;
  if decide (n ∈ st.1) then Ok st else Ok ({[n]} ∪ st.1, (st.2 ++ [ex])%list).

(** Lines 455-460. *)
Definition unique_exercises (all_exercises : list pydict) : result (list pydict) :=
  st ← for_each dedup_step (∅, []) all_exercises;
  Ok st.2.

(** Lines 449-460: the lists fetched for the focus areas are appended in
    order and the result is de-duplicated. *)
Definition merge (lists : list (list pydict)) : result (list pydict) :=
  unique_exercises (List.concat lists).

(** ** Well-formed inputs and the specification's wording *)

Definition is_str (v : pyval) : bool :=
  match v with VStr _ => true | _ => false end.

Definition is_int (v : pyval) : bool :=
  match v with VInt _ => true | _ => false end.

(** The three profile fields the fallback generator reads, with the
    defaults of lines 314-316. *)
Definition profile_experience (user_profile : pydict) : pyval :=
  dict_get user_profile "experience" (VStr "beginner").
Definition profile_goal (user_profile : pydict) : pyval :=
  dict_get user_profile "goal" (VStr "general_fitness").
Definition profile_days (user_profile : pydict) : pyval :=
  dict_get user_profile "days_per_week" (VInt 3).

(** A profile as the data model has it: experience and goal are strings,
    the number of days is an integer. *)
Definition profile_ok (user_profile : pydict) : Prop :=
  is_str (profile_experience user_profile)
  ∧ is_str (profile_goal user_profile)
  ∧ is_int (profile_days user_profile).

(** An exercise record that carries the two fields the generator reads. *)
Definition record_ok (ex : pydict) : Prop :=
  is_Some (ex !! "difficulty") ∧ is_Some (ex !! "name").

(** The suitable set in the words of the specification: the records whose
    difficulty is the experience, every record for an advanced user, and the
    whole list when that leaves nothing. *)
Definition spec_suitable (experience : pyval) (exercises : list pydict) : list pydict :=
  let filtered :=
    if decide (experience = VStr "advanced") then exercises
    else filter (λ ex : pydict, ex !! "difficulty" = Some experience) exercises in
  match filtered with
  | [] => exercises
  | _ => filtered
  end.

(** The table of the specification, §4.3 step 3. *)
Definition spec_table (experience : pyval) : Z * string * string :=
  if decide (experience = VStr "beginner") then (2%Z, "8-12", "90 seconds")
  else if decide (experience = VStr "intermediate") then (3%Z, "10-15", "60 seconds")
  else (3%Z, "12-20", "45 seconds").

(** The entry a day gets when every selected record has a name. *)
Definition planned_of (experience : pyval) (ex : pydict) : PlannedExercise :=
  {| name := default VNone (ex !! "name");
     sets := (WorkoutAI.sets_reps_rest experience).1.1;
     reps := (WorkoutAI.sets_reps_rest experience).1.2;
     rest := (WorkoutAI.sets_reps_rest experience).2;
     notes := "Focus on proper form" |}.

Definition day_entry (experience : pyval) (suitable : list pydict) (day : Z)
  : string * DaySchedule :=
  (WorkoutAI.day_key day,
   {| focus := if (day <=? 3)%Z then "Full Body" else "Active Recovery";
      exercises := planned_of experience <$> take 4 suitable |}).

(** The muscle of a record of the local table. *)
Definition muscle_of (ex : pydict) : string :=
  match ex !! "muscle" with
  | Some (VStr m) => m
  | _ => ""
  end.

(** Every planned exercise of a plan, day by day. *)
Definition all_planned (plan : WorkoutPlan) : list PlannedExercise :=
  (weekly_schedule plan).*2 ≫= exercises.

(** The first occurrence of each name, in the words of the specification:
    a record is retained when no record before it has its name. *)
Fixpoint first_occurrences (before : list pydict) (l : list pydict) : list pydict :=
  match l with
  | [] => []
  | ex :: l' =>
      if decide (Exists (λ ex' : pydict, ex' !! "name" = ex !! "name") before)
      then first_occurrences (before ++ [ex]) l'
      else ex :: first_occurrences (before ++ [ex]) l'
  end.

(** A record the de-duplication pass can read: it has a name that can be a
    member of a set. *)
Definition named (ex : pydict) : Prop :=
  ∃ n, ex !! "name" = Some n ∧ hashable n = Ok n.

(** The handling of a reply in the words of the specification: a first
    attempt on the text between the first opening and the last closing
    brace, a second attempt on the whole text when the first one fails, and
    the fallback plan when both fail. *)
Definition spec_parse_reply (json_loads : string → result json)
    (fallback : result plan_value) (plan_text : string) : result plan_value :=
  let start_idx := PyStr.find "{" plan_text in
  let last_idx := PyStr.rfind "}" plan_text in
  let first_attempt :=
    if (start_idx =? -1)%Z || (last_idx =? -1)%Z then Raise JSONDecodeError
    else json_loads (PyStr.slice plan_text start_idx (last_idx + 1)) in
  match first_attempt with
  | Ok plan => Ok (FromAI plan)
  | Raise _ =>
      match json_loads plan_text with
      | Ok plan => Ok (FromAI plan)
      | Raise _ => fallback
      end
  end.

(** The text that the requester decodes: the slice between the braces when
    an opening brace occurs, the whole text otherwise. *)
Definition decoded_text (plan_text : string) : string :=
  if (PyStr.find "{" plan_text =? -1)%Z then plan_text
  else PyStr.slice plan_text (PyStr.find "{" plan_text)
                   (PyStr.rfind "}" plan_text + 1).

(** ** Sample inputs *)

(** A profile as [main] stores it, lines 413-420. *)
Definition sample_profile : pydict :=
  {[ "goal" := VStr "muscle_gain"; "experience" := VStr "beginner";
     "days_per_week" := VInt 4; "duration" := VInt 45;
     "equipment" := VList ["body_only"]; "focus_areas" := VList ["full_body"] ]}.

(** The profile and the exercise set of the worked example: the first five
    records of the local table are Push-ups, Squats, Plank, Lunges and
    Burpees. *)
Definition example_profile : pydict :=
  {[ "experience" := VStr "beginner"; "days_per_week" := VInt 3 ]}.

Definition example_exercises : list pydict := take 5 ExerciseAPI.catalog.

(** A record as a remote catalog may return it, with no difficulty. *)
Definition record_without_difficulty : pydict :=
  {[ "name" := VStr "Jumping Jacks"; "type" := VStr "cardio";
     "muscle" := VStr "full_body" ]}.

Definition beginner_entry (n : string) : PlannedExercise :=
  {| name := VStr n; sets := 2; reps := "8-12"; rest := "90 seconds";
     notes := "Focus on proper form" |}.

(** A service that answers with a JSON array of two empty objects. *)
Definition array_reply : WorkoutAI.service := λ _ _, Ok "[{}, {}]".

(** ** The generation step of [main] *)

Module Main.

(** Lines 413-420: the profile stored from the widgets.  The select boxes
    yield strings, the sliders integers, the multi-selects lists of
    strings. *)
Definition user_profile (goal experience : string) (days_per_week duration : Z)
    (equipment focus_areas : list string) : pydict :=
  {[ "goal" := VStr goal; "experience" := VStr experience;
     "days_per_week" := VInt days_per_week; "duration" := VInt duration;
     "equipment" := VList equipment; "focus_areas" := VList focus_areas ]}.

(** Lines 449-452: one fetch per focus area, the lists appended in order. *)
Definition all_exercises (http_get : option string → ExerciseAPI.http_outcome)
    (focus_areas : list string) : result (list pydict) :=
  for_each
    (λ acc focus,
       exercises ← ExerciseAPI.fetch_exercises_ninja_api http_get (Some focus);
       Ok (acc ++ exercises))
    [] focus_areas.

(** Lines 207-213, [WorkoutAI.__init__]: the key is the argument when it is
    a non-empty string and the configured secret otherwise; there is a model
    exactly when the key is not empty.  [genai_model] stands for
    [genai.GenerativeModel] once [genai.configure] has received the key. *)
Definition new_model (api_key : option string) (secret : string)
    (genai_model : string → WorkoutAI.service) : option WorkoutAI.service :=
  let key :=
    match api_key with
    | Some k => if truthy (VStr k) then k else secret
    | None => secret
    end in
  if truthy (VStr key) then Some (genai_model key) else None.

(** Lines 449-470: what a click on the button computes, namely the list
    stored as [exercises_db] and the plan stored as [workout_plan].  Nothing
    here is inside a [try]: an exception ends the run. *)
Definition generate_clicked (json_loads : string → result json)
    (http_get : option string → ExerciseAPI.http_outcome)
    (secret : string) (genai_model : string → WorkoutAI.service)
    (profile : pydict) (focus_areas : list string)
  : result (list pydict * plan_value) :=
  all ← all_exercises http_get focus_areas;
  unique ← unique_exercises all;
  plan ← WorkoutAI.generate_workout_plan json_loads
            (new_model None secret genai_model) profile unique;
  Ok (unique, plan).

End Main.

(** The focus of a day, line 357. *)
Definition focus_of (day : Z) : string :=
  if (day <=? 3)%Z then "Full Body" else "Active Recovery".

(** The five fields a summary line reads. *)
Definition summary_keys : list string :=
  ["name"; "type"; "muscle"; "difficulty"; "equipment"].

(** A remote catalog that is down: every request fails. *)
Definition offline : option string → ExerciseAPI.http_outcome :=
  λ _, ExerciseAPI.RequestRaises ServiceError.

(** A service that answers with an empty object. *)
Definition object_reply : WorkoutAI.service := λ _ _, Ok "{}".

(** * Properties *)

(** ** The error monad and the ordered dictionary *)

Lemma traverse_ok {A B : Type} (f : A → result B) (g : A → B) (l : list A) :
  Forall (λ x, f x = Ok (g x)) l → traverse f l = Ok (g <$> l).
Proof.
  induction 1 as [|x l Hx _ IH]; [done|].
  cbn. rewrite Hx. cbn. by rewrite IH.
Qed.

Lemma traverse_raise {A B : Type} (f : A → result B) (g : A → B) (l1 l2 : list A) x e :
  Forall (λ y, f y = Ok (g y)) l1 → f x = Raise e →
  traverse f (l1 ++ x :: l2) = Raise e.
Proof.
  induction 1 as [|y l Hy _ IH]; intros Hx; cbn.
  - by rewrite Hx.
  - rewrite Hy. cbn. by rewrite IH.
Qed.

Lemma select_ok {A : Type} (p : A → result bool) (q : A → bool) (l : list A) :
  Forall (λ x, p x = Ok (q x)) l → select p l = Ok (filter (λ x, q x = true) l).
Proof.
  induction 1 as [|x l Hx _ IH]; [done|].
  rewrite filter_cons. cbn [select]. rewrite Hx. cbn. rewrite IH. cbn.
  destruct (q x); by case_decide.
Qed.

Lemma select_raise {A : Type} (p : A → result bool) (l : list A) x e :
  x ∈ l → p x = Raise e → (∀ y e', y ∈ l → p y = Raise e' → e' = e) →
  select p l = Raise e.
Proof.
  induction l as [|y l IH]; intros Hin Hx Hall; [by apply elem_of_nil in Hin|].
  cbn. destruct (p y) as [b|e'] eqn:Hy; cbn.
  - apply elem_of_cons in Hin as [->|Hin]; [congruence|].
    rewrite IH; [done..|].
    intros z e'' Hz. apply Hall. by right.
  - f_equal. eapply Hall; [|done]. by left.
Qed.

Lemma odict_set_fresh {V : Type} (d : odict V) (k : string) (v : V) :
  k ∉ odict_keys d → odict_set d k v = (d ++ [(k, v)])%list.
Proof.
  unfold odict_keys. induction d as [|[k' v'] d IH]; intros Hk; [done|].
  cbn in *. apply not_elem_of_cons in Hk as [Hne Hk].
  destruct (decide (k' = k)); [congruence|]. by rewrite IH.
Qed.

(** A loop that assigns one fresh key per iteration appends the entries in
    iteration order. *)
Lemma for_each_fresh_keys {V : Type} (f : Z → result (string * V)) (g : Z → string * V)
    (days : list Z) (acc : odict V) :
  Forall (λ d, f d = Ok (g d)) days →
  NoDup (odict_keys acc ++ ((fst ∘ g) <$> days)) →
  for_each (λ sched day, kv ← f day; Ok (odict_set sched kv.1 kv.2)) acc days
  = Ok (acc ++ (g <$> days))%list.
Proof.
  intros Hf. revert acc.
  induction Hf as [|d days Hd _ IH]; intros acc Hnd; cbn.
  - by rewrite app_nil_r.
  - rewrite Hd. cbn.
    assert ((g d).1 ∉ odict_keys acc) as Hfresh.
    { apply NoDup_app in Hnd as (_ & Hdis & _).
      intros Hin. apply (Hdis _ Hin). cbn. by left. }
    rewrite odict_set_fresh by done.
    rewrite IH.
    + rewrite <- app_assoc. cbn. by destruct (g d).
    + unfold odict_keys in *. rewrite fmap_app, <- app_assoc. exact Hnd.
Qed.

(** ** The fallback generator *)

Section Fallback.

Import WorkoutAI.

Lemma is_suitable_ok experience (ex : pydict) d :
  ex !! "difficulty" = Some d →
  is_suitable experience ex
  = Ok (bool_decide (d = experience) || bool_decide (experience = VStr "advanced")).
Proof. intros H. unfold is_suitable, dict_item. by rewrite H. Qed.

Lemma is_suitable_raise experience (ex : pydict) :
  ex !! "difficulty" = None →
  is_suitable experience ex = Raise (KeyError "difficulty").
Proof. intros H. unfold is_suitable, dict_item. by rewrite H. Qed.

Lemma select_is_suitable experience (exercises : list pydict) :
  Forall (λ ex : pydict, is_Some (ex !! "difficulty")) exercises →
  select (is_suitable experience) exercises
  = Ok (if decide (experience = VStr "advanced") then exercises
        else filter (λ ex : pydict, ex !! "difficulty" = Some experience) exercises).
Proof.
  induction 1 as [|ex l [d Hd] _ IH]; [by case_decide|].
  cbn. rewrite (is_suitable_ok _ _ _ Hd). cbn. rewrite IH. cbn.
  destruct (decide (experience = VStr "advanced")) as [->|Hadv].
  - by rewrite orb_true_r.
  - rewrite (bool_decide_eq_false_2 _ Hadv), orb_false_r.
    destruct (decide (d = experience)) as [->|Hne].
    + rewrite bool_decide_eq_true_2 by done. by rewrite decide_True.
    + rewrite bool_decide_eq_false_2 by done.
      rewrite decide_False; [done|congruence].
Qed.

Lemma suitable_exercises_ok experience (exercises : list pydict) :
  Forall (λ ex : pydict, is_Some (ex !! "difficulty")) exercises →
  suitable_exercises experience exercises = Ok (spec_suitable experience exercises).
Proof.
  intros H. unfold suitable_exercises. by rewrite select_is_suitable.
Qed.

Lemma suitable_exercises_raise experience (exercises : list pydict) ex :
  ex ∈ exercises → ex !! "difficulty" = None →
  suitable_exercises experience exercises = Raise (KeyError "difficulty").
Proof.
  intros Hin Hex. unfold suitable_exercises.
  rewrite (select_raise _ _ ex (KeyError "difficulty")); [done|done|..].
  - by apply is_suitable_raise.
  - intros y e' _. unfold is_suitable, dict_item.
    destruct (y !! "difficulty"); cbn; congruence.
Qed.

Lemma spec_suitable_subseteq experience (exercises : list pydict) :
  spec_suitable experience exercises ⊆ exercises.
Proof.
  unfold spec_suitable. case_decide.
  - by destruct exercises.
  - destruct (filter _ exercises) eqn:Hf; [done|].
    rewrite <- Hf. intros x Hx. by apply list_elem_of_filter in Hx as [_ ?].
Qed.

Lemma spec_suitable_nonempty experience (exercises : list pydict) :
  exercises ≠ [] → spec_suitable experience exercises ≠ [].
Proof.
  unfold spec_suitable. case_decide.
  - by destruct exercises.
  - by destruct (filter _ exercises).
Qed.

Lemma planned_ok experience (ex : pydict) :
  is_Some (ex !! "name") →
  planned (sets_reps_rest experience) ex = Ok (planned_of experience ex).
Proof.
  intros [n Hn]. unfold planned, planned_of, dict_item. by rewrite Hn.
Qed.

Lemma day_workout_ok experience (suitable : list pydict) day :
  Forall (λ ex : pydict, is_Some (ex !! "name")) (take 4 suitable) →
  day_workout experience suitable day = Ok (day_entry experience suitable day).
Proof.
  intros H. unfold day_workout, day_entry.
  rewrite (traverse_ok _ (planned_of experience)); [done|].
  eapply Forall_impl; [exact H|]. intros ex. apply planned_ok.
Qed.

Lemma day_key_inj : Inj (=) (=) day_key.
Proof.
  intros x y H. unfold day_key in H.
  apply (inj pretty). by simplify_eq/=.
Qed.

Lemma day_keys_NoDup days : NoDup (day_key <$> seqZ 1 days).
Proof. apply (NoDup_fmap_2 _), NoDup_seqZ. Qed.

(** The plan, in closed form, for inputs of the data model. *)
Lemma fallback_closed_form (user_profile : pydict) (exercises : list pydict) e g n :
  profile_experience user_profile = VStr e →
  profile_goal user_profile = VStr g →
  profile_days user_profile = VInt n →
  Forall record_ok exercises →
  _generate_fallback_plan user_profile exercises
  = Ok {| plan_name :=
            "Custom " +:+ PyStr.title e +:+ " "
            +:+ PyStr.title (PyStr.replace "_" " " g) +:+ " Plan";
          overview :=
            "A " +:+ pretty n +:+ "-day per week workout plan focused on "
            +:+ PyStr.replace "_" " " g;
          weekly_schedule :=
            day_entry (VStr e) (spec_suitable (VStr e) exercises) <$> seqZ 1 n;
          progression_tips := the_progression_tips;
          success_tips := the_success_tips |}.
Proof.
  unfold profile_experience, profile_goal, profile_days.
  intros He Hg Hn Hex. unfold _generate_fallback_plan.
  rewrite He, Hg, Hn.
  rewrite suitable_exercises_ok
    by (eapply Forall_impl; [exact Hex|]; by intros ? [? _]).
  cbn.
  rewrite (for_each_fresh_keys _
             (day_entry (VStr e) (spec_suitable (VStr e) exercises))).
  - done.
  - apply Forall_forall. intros d _. apply day_workout_ok.
    apply Forall_forall. intros ex Hin.
    apply (Forall_forall record_ok exercises); [done|].
    apply spec_suitable_subseteq with (experience := VStr e).
    by eapply subseteq_take.
  - exact (day_keys_NoDup n).
Qed.

End Fallback.

Section FallbackClaims.

Import WorkoutAI.

Lemma profile_ok_inv (user_profile : pydict) :
  profile_ok user_profile →
  ∃ e g n, profile_experience user_profile = VStr e
           ∧ profile_goal user_profile = VStr g
           ∧ profile_days user_profile = VInt n.
Proof.
  intros (He & Hg & Hn).
  destruct (profile_experience user_profile) as [| |e|]; try done.
  destruct (profile_goal user_profile) as [| |g|]; try done.
  destruct (profile_days user_profile) as [|n| |]; try done.
  by exists e, g, n.
Qed.

(** Whatever the inputs, a plan that is returned was built from a string
    experience, a string goal and an integer number of days. *)
Lemma fallback_inv (user_profile : pydict) (exercises : list pydict) plan :
  _generate_fallback_plan user_profile exercises = Ok plan →
  ∃ suitable e g n schedule,
    suitable_exercises (profile_experience user_profile) exercises = Ok suitable
    ∧ profile_experience user_profile = VStr e
    ∧ profile_goal user_profile = VStr g
    ∧ profile_days user_profile = VInt n
    ∧ for_each
        (λ sched day,
           kv ← day_workout (VStr e) suitable day;
           Ok (odict_set sched kv.1 kv.2))
        [] (seqZ 1 n) = Ok schedule
    ∧ plan = {| plan_name :=
                  "Custom " +:+ PyStr.title e +:+ " "
                  +:+ PyStr.title (PyStr.replace "_" " " g) +:+ " Plan";
                overview :=
                  "A " +:+ pretty n +:+ "-day per week workout plan focused on "
                  +:+ PyStr.replace "_" " " g;
                weekly_schedule := schedule;
                progression_tips := the_progression_tips;
                success_tips := the_success_tips |}.
Proof.
  unfold _generate_fallback_plan, profile_experience, profile_goal, profile_days.
  intros H.
  destruct (suitable_exercises _ exercises) as [suitable|] eqn:Hs; [|done].
  cbn in H.
  destruct (dict_get user_profile "experience" _) as [| |e|]; try done.
  destruct (dict_get user_profile "goal" _) as [| |g|]; try done.
  destruct (dict_get user_profile "days_per_week" _) as [|n| |]; try done.
  cbn in H.
  destruct (for_each _ [] (seqZ 1 n)) as [schedule|] eqn:Hl; [|done].
  cbn in H. injection H as <-.
  by exists suitable, e, g, n, schedule.
Qed.

Lemma traverse_Forall {A B : Type} (f : A → result B) (P : B → Prop) l ys :
  (∀ x y, f x = Ok y → P y) → traverse f l = Ok ys → Forall P ys.
Proof.
  intros Hf. revert ys. induction l as [|x l IH]; intros ys H; cbn in H.
  - by injection H as <-.
  - destruct (f x) as [y|] eqn:Hx; [|done]. cbn in H.
    destruct (traverse f l) as [ys'|]; [|done]. cbn in H.
    injection H as <-. constructor; eauto.
Qed.

Lemma odict_set_Forall {V : Type} (P : V → Prop) (d : odict V) k v :
  Forall P d.*2 → P v → Forall P (odict_set d k v).*2.
Proof.
  induction d as [|[k' v'] d IH]; cbn; intros Hd Hv.
  - by constructor.
  - apply Forall_cons in Hd as [Hv' Hd].
    case_decide; cbn; constructor; auto.
Qed.

Lemma for_each_Forall {V : Type} (P : V → Prop) (f : Z → result (string * V)) days acc d :
  (∀ day kv, f day = Ok kv → P kv.2) →
  Forall P acc.*2 →
  for_each (λ sched day, kv ← f day; Ok (odict_set sched kv.1 kv.2)) acc days = Ok d →
  Forall P d.*2.
Proof.
  intros Hf. revert acc. induction days as [|day days IH]; intros acc Hacc H; cbn in H.
  - by injection H as <-.
  - destruct (f day) as [kv|] eqn:Hday; [|done]. cbn in H.
    eapply IH; [|exact H]. apply odict_set_Forall; eauto.
Qed.

(** Whatever the inputs, every exercise of a returned plan carries the
    triple of the experience. *)
Lemma fallback_triple_returned (user_profile : pydict) (exercises : list pydict) plan :
  _generate_fallback_plan user_profile exercises = Ok plan →
  Forall (λ pe, (sets pe, reps pe, rest pe)
                = sets_reps_rest (profile_experience user_profile))
         (all_planned plan).
Proof.
  intros H. apply fallback_inv in H
    as (suitable & e & g & n & schedule & _ & He & _ & _ & Hloop & ->).
  unfold all_planned. cbn. rewrite He.
  apply Forall_bind.
  eapply (for_each_Forall _ _ _ []); [|constructor|exact Hloop].
  intros day kv Hday. unfold day_workout in Hday.
  destruct (traverse _ _) as [exs|] eqn:Hexs; [|done].
  cbn in Hday. injection Hday as <-. cbn.
  eapply traverse_Forall; [|exact Hexs].
  intros x y Hy. unfold planned in Hy.
  destruct (dict_item x "name"); [|done]. cbn in Hy. injection Hy as <-. cbn.
  by destruct (sets_reps_rest (VStr e)) as [[? ?] ?].
Qed.

Lemma sets_reps_rest_table experience :
  sets_reps_rest experience = spec_table experience.
Proof. reflexivity. Qed.

End FallbackClaims.

(** ** Claims about the fallback generator *)

Section FallbackTheorems.

Import WorkoutAI.

Lemma catalog_ok : Forall record_ok ExerciseAPI.catalog.
Proof. repeat constructor; by eexists. Qed.

Example example_exercises_names :
  (λ ex : pydict, ex !! "name") <$> example_exercises
  = Some <$> [VStr "Push-ups"; VStr "Squats"; VStr "Plank"; VStr "Lunges"; VStr "Burpees"].
Proof. reflexivity. Qed.

Example example_exercises_difficulties :
  (λ ex : pydict, ex !! "difficulty") <$> example_exercises
  = Some <$> [VStr "beginner"; VStr "beginner"; VStr "beginner";
              VStr "intermediate"; VStr "intermediate"].
Proof. reflexivity. Qed.

Example day_keys_7 :
  (λ d : Z, "day_" +:+ pretty d) <$> seqZ 1 7
  = ["day_1"; "day_2"; "day_3"; "day_4"; "day_5"; "day_6"; "day_7"].
Proof. by vm_compute. Qed.

(** C1.  For a profile with [days_per_week = N], [2 <= N <= 7], and
    exercise records of the data model, the fallback generator returns a
    plan whose weekly schedule has exactly [N] entries, keyed [day_1] to
    [day_N] in that order. *)
Theorem C1_schedule_keys (user_profile : pydict) (exercises : list pydict) (N : Z) :
  user_profile !! "days_per_week" = Some (VInt N) →
  (2 ≤ N ≤ 7)%Z →
  profile_ok user_profile →
  Forall record_ok exercises →
  ∃ plan,
    _generate_fallback_plan user_profile exercises = Ok plan
    ∧ odict_keys (weekly_schedule plan) = (λ d : Z, "day_" +:+ pretty d) <$> seqZ 1 N
    ∧ Z.of_nat (List.length (weekly_schedule plan)) = N
    ∧ NoDup (odict_keys (weekly_schedule plan)).
Proof.
  intros HN Hrange Hp Hex.
  destruct (profile_ok_inv _ Hp) as (e & g & n & He & Hg & Hn).
  assert (n = N) as ->.
  { unfold profile_days, dict_get in Hn. rewrite HN in Hn. cbn in Hn. congruence. }
  eexists. split; [by apply fallback_closed_form|]. cbn.
  unfold odict_keys. rewrite <- list_fmap_compose.
  split; [done|]. split.
  - rewrite length_fmap, length_seqZ. lia.
  - exact (day_keys_NoDup N).
Qed.

Lemma C1_schedule_keys_witness :
  ∃ plan,
    _generate_fallback_plan sample_profile ExerciseAPI.catalog = Ok plan
    ∧ odict_keys (weekly_schedule plan) = (λ d : Z, "day_" +:+ pretty d) <$> seqZ 1 4
    ∧ Z.of_nat (List.length (weekly_schedule plan)) = 4%Z
    ∧ NoDup (odict_keys (weekly_schedule plan)).
Proof.
  apply (C1_schedule_keys sample_profile ExerciseAPI.catalog 4).
  - reflexivity.
  - lia.
  - by vm_compute.
  - exact catalog_ok.
Defined.

(** C2.  For a profile and a non-empty list of exercise records of the
    data model, the fallback generator returns a plan in which every day
    has at least one exercise and every planned exercise carries the triple
    of the table: beginner (2, 8-12, 90 seconds), intermediate (3, 10-15,
    60 seconds), advanced or anything else (3, 12-20, 45 seconds). *)
Theorem C2_table_triple (user_profile : pydict) (exercises : list pydict) :
  profile_ok user_profile →
  Forall record_ok exercises →
  exercises ≠ [] →
  ∃ plan,
    _generate_fallback_plan user_profile exercises = Ok plan
    ∧ Forall (λ day, day_exercises day ≠ []) (weekly_schedule plan).*2
    ∧ Forall (λ pe,
                (sets pe, reps pe, rest pe)
                = if decide (profile_experience user_profile = VStr "beginner")
                  then (2%Z, "8-12", "90 seconds")
                  else if decide (profile_experience user_profile = VStr "intermediate")
                  then (3%Z, "10-15", "60 seconds")
                  else (3%Z, "12-20", "45 seconds"))
             (all_planned plan).
Proof.
  intros Hp Hex Hne.
  destruct (profile_ok_inv _ Hp) as (e & g & n & He & Hg & Hn).
  eexists. split; [by apply fallback_closed_form|]. split.
  - cbn. rewrite <- list_fmap_compose. apply Forall_fmap, Forall_forall.
    intros d _. cbn.
    pose proof (spec_suitable_nonempty (VStr e) exercises Hne) as Hs.
    by destruct (spec_suitable (VStr e) exercises).
  - apply (fallback_triple_returned user_profile exercises).
    by apply fallback_closed_form.
Qed.

Lemma C2_table_triple_witness :
  ∃ plan,
    _generate_fallback_plan sample_profile ExerciseAPI.catalog = Ok plan
    ∧ Forall (λ day, day_exercises day ≠ []) (weekly_schedule plan).*2
    ∧ Forall (λ pe, (sets pe, reps pe, rest pe) = (2%Z, "8-12", "90 seconds"))
             (all_planned plan).
Proof.
  apply (C2_table_triple sample_profile ExerciseAPI.catalog).
  - by vm_compute.
  - exact catalog_ok.
  - discriminate.
Defined.

(** C3.  For every profile and every list of records that carry a
    difficulty, the suitable set the generator computes is the list
    filtered to the records whose difficulty is the experience, every
    record when the experience is "advanced", and the whole list when the
    filter leaves nothing. *)
Theorem C3_suitable_set (user_profile : pydict) (exercises : list pydict) :
  Forall (λ ex : pydict, is_Some (ex !! "difficulty")) exercises →
  suitable_exercises (profile_experience user_profile) exercises
  = Ok (let experience := profile_experience user_profile in
        let filtered :=
          if decide (experience = VStr "advanced") then exercises
          else filter (λ ex : pydict, ex !! "difficulty" = Some experience) exercises in
        match filtered with
        | [] => exercises
        | _ => filtered
        end).
Proof. apply suitable_exercises_ok. Qed.

Lemma C3_suitable_set_witness :
  suitable_exercises (profile_experience example_profile) example_exercises
  = Ok (take 3 example_exercises).
Proof.
  rewrite (C3_suitable_set example_profile example_exercises).
  - reflexivity.
  - repeat constructor; by eexists.
Defined.

End FallbackTheorems.

Section FallbackTotality.

Import WorkoutAI.

(** C5, as stated, fails: a record without a difficulty makes the
    generator raise. *)
Lemma C5_counterexample :
  _generate_fallback_plan sample_profile [record_without_difficulty]
  = Raise (KeyError "difficulty").
Proof. reflexivity. Qed.

(** C5, amended.  For every profile of the data model and every list of
    records that carry a difficulty and a name, the empty list and any
    number of days included, the generator returns a plan; its schedule
    has one entry per day, and when the list is empty every day has an
    empty list of exercises. *)
Theorem C5_total_on_records (user_profile : pydict) (exercises : list pydict) :
  profile_ok user_profile →
  Forall record_ok exercises →
  ∃ plan n,
    _generate_fallback_plan user_profile exercises = Ok plan
    ∧ profile_days user_profile = VInt n
    ∧ List.length (weekly_schedule plan) = Z.to_nat n
    ∧ (exercises = [] →
       Forall (λ day, day_exercises day = []) (weekly_schedule plan).*2).
Proof.
  intros Hp Hex.
  destruct (profile_ok_inv _ Hp) as (e & g & n & He & Hg & Hn).
  eexists _, n. split; [by apply fallback_closed_form|].
  split; [done|]. cbn. split.
  - by rewrite length_fmap, length_seqZ.
  - intros ->. rewrite <- list_fmap_compose.
    apply Forall_fmap, Forall_forall. intros d _. cbn.
    unfold spec_suitable. by case_decide.
Qed.

Lemma C5_total_on_records_witness :
  (∃ plan n,
     _generate_fallback_plan (<["days_per_week" := VInt 2]> sample_profile) [] = Ok plan
     ∧ profile_days (<["days_per_week" := VInt 2]> sample_profile) = VInt n
     ∧ List.length (weekly_schedule plan) = Z.to_nat n
     ∧ (@nil pydict = [] →
        Forall (λ day, day_exercises day = []) (weekly_schedule plan).*2))
  ∧ (∃ plan n,
       _generate_fallback_plan (<["days_per_week" := VInt 7]> sample_profile)
                               ExerciseAPI.catalog = Ok plan
       ∧ profile_days (<["days_per_week" := VInt 7]> sample_profile) = VInt n
       ∧ List.length (weekly_schedule plan) = Z.to_nat n
       ∧ (ExerciseAPI.catalog = [] →
          Forall (λ day, day_exercises day = []) (weekly_schedule plan).*2)).
Proof.
  split.
  - apply (C5_total_on_records (<["days_per_week" := VInt 2]> sample_profile) []).
    + by vm_compute.
    + constructor.
  - apply (C5_total_on_records (<["days_per_week" := VInt 7]> sample_profile)
                               ExerciseAPI.catalog).
    + by vm_compute.
    + exact catalog_ok.
Defined.

(** A profile that is not of the data model raises as well: an experience
    that is not a string has no [title]. *)
Example fallback_experience_not_a_string :
  _generate_fallback_plan (<["experience" := VInt 1]> sample_profile) []
  = Raise AttributeError.
Proof. reflexivity. Qed.

Example fallback_days_not_an_integer :
  _generate_fallback_plan (<["days_per_week" := VStr "3"]> sample_profile) []
  = Raise TypeError.
Proof. reflexivity. Qed.

(** C10.  For a profile of the data model: when every record has a
    difficulty and a name the generator returns a plan; when the
    experience is not "advanced" and some record has no difficulty, it
    raises the key error of that field. *)
Theorem C10_record_precondition (user_profile : pydict) (exercises : list pydict) :
  profile_ok user_profile →
  (Forall record_ok exercises →
   ∃ plan, _generate_fallback_plan user_profile exercises = Ok plan)
  ∧ (profile_experience user_profile ≠ VStr "advanced" →
     (∃ ex, ex ∈ exercises ∧ ex !! "difficulty" = None) →
     _generate_fallback_plan user_profile exercises = Raise (KeyError "difficulty")).
Proof.
  intros Hp. split.
  - intros Hex.
    destruct (profile_ok_inv _ Hp) as (e & g & n & He & Hg & Hn).
    eexists. by apply fallback_closed_form.
  - intros _ (ex & Hin & Hex). unfold _generate_fallback_plan.
    by rewrite (suitable_exercises_raise _ _ ex).
Qed.

Lemma C10_record_precondition_witness :
  (∃ plan, _generate_fallback_plan sample_profile ExerciseAPI.catalog = Ok plan)
  ∧ _generate_fallback_plan sample_profile
      (ExerciseAPI.catalog ++ [record_without_difficulty])
    = Raise (KeyError "difficulty").
Proof.
  split.
  - apply (C10_record_precondition sample_profile ExerciseAPI.catalog).
    + by vm_compute.
    + exact catalog_ok.
  - apply (C10_record_precondition sample_profile
             (ExerciseAPI.catalog ++ [record_without_difficulty])).
    + by vm_compute.
    + discriminate.
    + exists record_without_difficulty. split; [|reflexivity].
      apply elem_of_app. right. by left.
Defined.

(** The difficulty is read on the advanced path too: the subscript is
    evaluated before the test for "advanced". *)
Lemma fallback_missing_difficulty_any (user_profile : pydict) (exercises : list pydict) ex :
  ex ∈ exercises → ex !! "difficulty" = None →
  _generate_fallback_plan user_profile exercises = Raise (KeyError "difficulty").
Proof.
  intros Hin Hex. unfold _generate_fallback_plan.
  by rewrite (suitable_exercises_raise _ _ ex).
Qed.

(** The name is read when a day is built: with at least one day, a
    selected record without a name raises the key error of that field. *)
Example fallback_missing_name :
  _generate_fallback_plan sample_profile [ {[ "difficulty" := VStr "beginner" ]} ]
  = Raise (KeyError "name").
Proof. reflexivity. Qed.

Example fallback_missing_name_no_day :
  ∃ plan,
    _generate_fallback_plan (<["days_per_week" := VInt 0]> sample_profile)
                            [ {[ "difficulty" := VStr "beginner" ]} ] = Ok plan
    ∧ weekly_schedule plan = [].
Proof. eexists. split; reflexivity. Qed.

End FallbackTotality.

Section FallbackExample.

Import WorkoutAI.

(** C6, as stated, fails: no returned plan for the worked example has
    three days that each list Push-ups, Squats, Plank and Lunges. *)
Lemma C6_counterexample :
  ¬ ∃ plan,
      _generate_fallback_plan example_profile example_exercises = Ok plan
      ∧ List.length (weekly_schedule plan) = 3
      ∧ Forall (λ day,
                  focus day = "Full Body"
                  ∧ day_exercises day
                    = beginner_entry <$> ["Push-ups"; "Squats"; "Plank"; "Lunges"])
               (weekly_schedule plan).*2.
Proof.
  intros (plan & Hplan & _ & Hdays).
  vm_compute in Hplan. injection Hplan as <-.
  cbn in Hdays. apply Forall_cons in Hdays as [[_ Hday] _].
  discriminate Hday.
Qed.

(** C6, amended.  For the profile (beginner, 3 days) and the exercise set
    Push-ups, Squats, Plank, Lunges, Burpees of the local table, the plan
    has the three days [day_1], [day_2], [day_3], each with focus "Full
    Body" and exactly Push-ups, Squats, Plank in that order, each with 2
    sets, 8-12 reps and 90 seconds of rest: Lunges is an intermediate
    exercise of the table and is filtered out. *)
Theorem C6_worked_example :
  ∃ plan,
    _generate_fallback_plan example_profile example_exercises = Ok plan
    ∧ weekly_schedule plan
      = (λ key, (key, {| focus := "Full Body";
                         exercises := beginner_entry <$> ["Push-ups"; "Squats"; "Plank"] |}))
        <$> ["day_1"; "day_2"; "day_3"].
Proof. eexists. split; reflexivity. Qed.

(** C7, as stated, fails: a returned plan has three progression tips. *)
Lemma C7_counterexample :
  ∃ plan,
    _generate_fallback_plan sample_profile ExerciseAPI.catalog = Ok plan
    ∧ List.length (progression_tips plan) = 3
    ∧ List.length (progression_tips plan) ≠ 4.
Proof. eexists. split; [reflexivity|]. split; [reflexivity|discriminate]. Qed.

(** C7, amended.  Whatever the profile and the exercises, the progression
    tips and the success tips of a returned plan are the two constant lists
    of the source, of 3 and 4 entries. *)
Theorem C7_constant_tips (user_profile : pydict) (exercises : list pydict) plan :
  _generate_fallback_plan user_profile exercises = Ok plan →
  progression_tips plan = the_progression_tips
  ∧ success_tips plan = the_success_tips
  ∧ List.length (progression_tips plan) = 3
  ∧ List.length (success_tips plan) = 4.
Proof.
  intros H. apply fallback_inv in H as (? & ? & ? & ? & ? & _ & _ & _ & _ & _ & ->).
  by cbn.
Qed.

Lemma C7_constant_tips_witness :
  ∃ plan,
    _generate_fallback_plan sample_profile ExerciseAPI.catalog = Ok plan
    ∧ progression_tips plan = the_progression_tips
    ∧ success_tips plan = the_success_tips
    ∧ List.length (progression_tips plan) = 3
    ∧ List.length (success_tips plan) = 4.
Proof.
  eexists. split; [reflexivity|].
  apply (C7_constant_tips sample_profile ExerciseAPI.catalog).
  reflexivity.
Defined.

End FallbackExample.

(** ** The de-duplication pass *)

Section Dedup.

Implicit Types (ex : pydict) (l before uniq : list pydict) (seen : gset pyval).

(** Two records have the same name. *)
Local Abbreviation same_name ex := (λ ex' : pydict, ex' !! "name" = ex !! "name").

Lemma dedup_step_seen seen uniq ex n :
  ex !! "name" = Some n → hashable n = Ok n → n ∈ seen →
  dedup_step (seen, uniq) ex = Ok (seen, uniq).
Proof.
  intros Hn Hh Hin. unfold dedup_step, dict_item. rewrite Hn. cbn.
  rewrite Hh. cbn. by rewrite decide_True.
Qed.

Lemma dedup_step_new seen uniq ex n :
  ex !! "name" = Some n → hashable n = Ok n → n ∉ seen →
  dedup_step (seen, uniq) ex = Ok ({[n]} ∪ seen, uniq ++ [ex]).
Proof.
  intros Hn Hh Hin. unfold dedup_step, dict_item. rewrite Hn. cbn.
  rewrite Hh. cbn. by rewrite decide_False.
Qed.

(** The loop invariant: [seen] holds the names of the records already
    visited, [uniq] the records retained among them. *)
Lemma for_each_dedup l before seen uniq :
  Forall named l →
  (∀ n, n ∈ seen ↔ ∃ ex', ex' ∈ before ∧ ex' !! "name" = Some n) →
  ∃ seen',
    for_each dedup_step (seen, uniq) l
    = Ok (seen', uniq ++ first_occurrences before l).
Proof.
  intros Hl. revert before seen uniq.
  induction Hl as [|ex l (n & Hn & Hh) _ IH]; intros before seen uniq Hinv; cbn.
  - exists seen. by rewrite app_nil_r.
  - destruct (decide (n ∈ seen)) as [Hin|Hnin].
    + rewrite (dedup_step_seen _ _ _ n) by done. cbn.
      rewrite decide_True.
      2:{ apply Hinv in Hin as (ex' & Hin' & Hex').
          apply Exists_exists. exists ex'. split; [done|congruence]. }
      apply IH. intros m. rewrite Hinv. split.
      * intros (ex' & Hin' & Hex'). exists ex'. split; [|done].
        apply elem_of_app. by left.
      * intros (ex' & Hin' & Hex').
        apply elem_of_app in Hin' as [Hin'|Hin']; [by exists ex'|].
        apply list_elem_of_singleton in Hin' as ->.
        apply Hinv. by replace m with n by congruence.
    + rewrite (dedup_step_new _ _ _ n) by done. cbn.
      rewrite decide_False.
      2:{ intros Hex. apply Exists_exists in Hex as (ex' & Hin' & Hex').
          apply Hnin, Hinv. exists ex'. split; [done|congruence]. }
      destruct (IH (before ++ [ex]) ({[n]} ∪ seen) (uniq ++ [ex])) as [seen' Hs].
      * intros m. rewrite elem_of_union, elem_of_singleton, Hinv. split.
        -- intros [->|(ex' & Hin' & Hex')].
           ++ exists ex. split; [|done]. apply elem_of_app. right. by left.
           ++ exists ex'. split; [|done]. apply elem_of_app. by left.
        -- intros (ex' & Hin' & Hex').
           apply elem_of_app in Hin' as [Hin'|Hin']; [right; by exists ex'|].
           apply list_elem_of_singleton in Hin' as ->. left. congruence.
      * exists seen'. rewrite Hs. by rewrite <- app_assoc.
Qed.

Lemma unique_exercises_ok l :
  Forall named l → unique_exercises l = Ok (first_occurrences [] l).
Proof.
  intros Hl. unfold unique_exercises.
  destruct (for_each_dedup l [] ∅ [] Hl) as [seen' ->]; [|done].
  intros n. split; [set_solver|].
  intros (ex' & Hin & _). by apply elem_of_nil in Hin.
Qed.

Lemma first_occurrences_sublist before l :
  sublist (first_occurrences before l) l.
Proof.
  revert before. induction l as [|ex l IH]; intros before; cbn.
  - constructor.
  - case_decide; [apply sublist_cons|apply sublist_skip]; apply IH.
Qed.

(** The position of a retained record: no record in front of it, nor any
    in [before], has its name. *)
Lemma first_occurrences_lookup before l ex :
  ex ∈ first_occurrences before l
  ↔ ∃ i, l !! i = Some ex ∧ ¬ Exists (same_name ex) (before ++ take i l).
Proof.
  revert before. induction l as [|x l IH]; intros before; cbn.
  - split; [by intros ?%elem_of_nil|]. by intros (i & ? & _).
  - assert (ex ∈ first_occurrences (before ++ [x]) l
            ↔ ∃ i, (x :: l) !! S i = Some ex
                   ∧ ¬ Exists (same_name ex) (before ++ take (S i) (x :: l))) as Htl.
    { rewrite IH. apply exist_proper. intros i. cbn.
      by rewrite <- app_assoc. }
    case_decide as Hx.
    + rewrite Htl. split.
      * intros (i & ?). by exists (S i).
      * intros ([|i] & Hi & Hfresh); [|by exists i].
        cbn in Hi. injection Hi as <-. destruct Hfresh.
        rewrite app_nil_r. exact Hx.
    + rewrite elem_of_cons, Htl. split.
      * intros [->|(i & ?)]; [|by exists (S i)].
        exists 0. cbn. by rewrite app_nil_r.
      * intros ([|i] & Hi & Hfresh); [|right; by exists i].
        cbn in Hi. injection Hi as <-. by left.
Qed.

Lemma first_occurrences_fresh before l ex :
  ex ∈ first_occurrences before l → ¬ Exists (same_name ex) before.
Proof.
  intros (i & _ & Hfresh)%first_occurrences_lookup Hex.
  apply Hfresh, Exists_app. by left.
Qed.

Lemma first_occurrences_NoDup before l :
  NoDup ((λ ex, ex !! "name") <$> first_occurrences before l).
Proof.
  revert before. induction l as [|x l IH]; intros before; cbn.
  - constructor.
  - case_decide; [apply IH|].
    cbn. constructor; [|apply IH].
    intros (ex & Hname & Hin)%list_elem_of_fmap.
    apply first_occurrences_fresh in Hin. apply Hin.
    apply Exists_app. right. by constructor.
Qed.

(** A list whose names are pairwise distinct, and new with respect to
    [before], is retained whole. *)
Lemma first_occurrences_id before l :
  NoDup ((λ ex, ex !! "name") <$> l) →
  (∀ ex, ex ∈ l → ¬ Exists (same_name ex) before) →
  first_occurrences before l = l.
Proof.
  revert before. induction l as [|x l IH]; intros before Hnd Hfresh; [done|].
  cbn in *. apply NoDup_cons in Hnd as [Hx Hnd].
  rewrite decide_False by (apply Hfresh; by left).
  f_equal. apply IH; [done|].
  intros ex Hin [Hex|Hex]%Exists_app.
  - apply (Hfresh ex); [by right|done].
  - apply Exists_cons in Hex as [Hex|Hex]; [|by apply Exists_nil in Hex].
    apply Hx. rewrite Hex. apply list_elem_of_fmap. by exists ex.
Qed.

Lemma first_occurrences_app before l1 l2 :
  first_occurrences before (l1 ++ l2)
  = first_occurrences before l1 ++ first_occurrences (before ++ l1) l2.
Proof.
  revert before. induction l1 as [|x l1 IH]; intros before; cbn.
  - by rewrite app_nil_r.
  - rewrite IH, <- app_assoc. cbn. by case_decide.
Qed.

(** Records whose names have all been seen leave nothing. *)
Lemma first_occurrences_seen before l :
  (∀ ex, ex ∈ l → Exists (same_name ex) before) →
  first_occurrences before l = [].
Proof.
  revert before. induction l as [|x l IH]; intros before Hseen; [done|].
  cbn. rewrite decide_True by (apply Hseen; by left).
  apply IH. intros ex Hin. apply Exists_app. left. apply Hseen. by right.
Qed.

Lemma first_occurrences_idempotent l :
  first_occurrences [] (first_occurrences [] l) = first_occurrences [] l.
Proof.
  apply first_occurrences_id; [apply first_occurrences_NoDup|].
  intros ex _ Hex. by apply Exists_nil in Hex.
Qed.

Lemma first_occurrences_twice l :
  first_occurrences [] (l ++ l) = first_occurrences [] l.
Proof.
  rewrite first_occurrences_app. cbn.
  rewrite (first_occurrences_seen l l), app_nil_r; [done|].
  intros ex Hin. apply Exists_exists. by exists ex.
Qed.

Lemma first_occurrences_named before l :
  Forall named l → Forall named (first_occurrences before l).
Proof.
  intros Hl. apply Forall_forall. intros ex Hin.
  apply (Forall_forall named l); [done|].
  eapply elem_of_sublist; [exact Hin|apply first_occurrences_sublist].
Qed.

End Dedup.

Section DedupClaim.

Lemma not_Exists_take {A : Type} (P : A → Prop) (l : list A) (i : nat) :
  ¬ Exists P (take i l) ↔ ∀ j x, j < i → l !! j = Some x → ¬ P x.
Proof.
  rewrite Exists_exists. split.
  - intros Hno j x Hj Hx HP. apply Hno. exists x. split; [|done].
    apply list_elem_of_lookup. exists j. by rewrite lookup_take_lt.
  - intros Hall (x & Hin & HP).
    apply list_elem_of_lookup in Hin as [j Hj].
    apply lookup_take_Some in Hj as [Hj Hlt]. by eapply Hall.
Qed.

Lemma named_catalog : Forall named ExerciseAPI.catalog.
Proof. repeat constructor; eexists; by split. Qed.

(** Names are compared as they are: two spellings that differ in case are
    two names. *)
Example dedup_case_sensitive :
  unique_exercises [ {[ "name" := VStr "Plank" ]}; {[ "name" := VStr "plank" ]};
                     {[ "name" := VStr "Plank" ]} ]
  = Ok [ {[ "name" := VStr "Plank" ]}; {[ "name" := VStr "plank" ]} ].
Proof. by vm_compute. Qed.

(** C4.  On lists of named records, the deduplicator returns the
    concatenation of the lists, in argument order, reduced to the first
    record of each name: the result is a subsequence of the concatenation,
    its names are pairwise distinct, and a record is in it exactly when it
    stands in the concatenation at a position before which its name does
    not occur.  De-duplicating the result again, or the concatenation
    written twice, gives the same result; and [A; B; A'] with [A'] named as
    [A] and [B] named otherwise gives [A; B]. *)
Theorem C4_deduplicator :
  (∀ lists : list (list pydict),
     Forall (Forall named) lists →
     ∃ uniq,
       merge lists = Ok uniq
       ∧ uniq = first_occurrences [] (List.concat lists)
       ∧ sublist uniq (List.concat lists)
       ∧ NoDup ((λ ex : pydict, ex !! "name") <$> uniq)
       ∧ (∀ ex : pydict,
            ex ∈ uniq ↔
            ∃ i, List.concat lists !! i = Some ex
                 ∧ ∀ j (ex' : pydict), j < i → List.concat lists !! j = Some ex' →
                     ex' !! "name" ≠ ex !! "name")
       ∧ merge [uniq] = Ok uniq
       ∧ merge (lists ++ lists) = Ok uniq)
  ∧ (∀ A B A' : pydict,
       named A → named B → named A' →
       A' !! "name" = A !! "name" → B !! "name" ≠ A !! "name" →
       merge [[A; B; A']] = Ok [A; B]).
Proof.
  split.
  - intros lists Hl.
    assert (Forall named (List.concat lists)) as Hall by by apply Forall_concat.
    exists (first_occurrences [] (List.concat lists)).
    unfold merge. split; [by apply unique_exercises_ok|].
    split; [done|].
    split; [apply first_occurrences_sublist|].
    split; [apply first_occurrences_NoDup|].
    split; [|split].
    + intros ex. rewrite first_occurrences_lookup. apply exist_proper. intros i.
      cbn. by rewrite not_Exists_take.
    + replace (List.concat [first_occurrences [] (List.concat lists)])
        with (first_occurrences [] (List.concat lists))
        by (cbn; by rewrite app_nil_r).
      rewrite unique_exercises_ok by by apply first_occurrences_named.
      by rewrite first_occurrences_idempotent.
    + rewrite concat_app.
      rewrite unique_exercises_ok by (apply Forall_app; by split).
      by rewrite first_occurrences_twice.
  - intros A B A' HA HB HA' Hsame Hdiff. unfold merge.
    change (List.concat [[A; B; A']]) with [A; B; A'].
    rewrite unique_exercises_ok by by repeat constructor.
    cbn. rewrite decide_False by by intros ?%Exists_nil.
    rewrite decide_False.
    2:{ intros [?|?%Exists_nil]%Exists_cons; congruence. }
    rewrite decide_True; [done|].
    by apply Exists_cons_hd.
Qed.

Lemma C4_deduplicator_witness :
  (∃ uniq,
     merge [take 3 ExerciseAPI.catalog; take 5 ExerciseAPI.catalog] = Ok uniq
     ∧ uniq = take 5 ExerciseAPI.catalog
     ∧ merge [uniq] = Ok uniq)
  ∧ merge [[ {[ "name" := VStr "A"; "muscle" := VStr "chest" ]};
             {[ "name" := VStr "B" ]};
             {[ "name" := VStr "A"; "muscle" := VStr "lats" ]} ]]
    = Ok [ {[ "name" := VStr "A"; "muscle" := VStr "chest" ]}; {[ "name" := VStr "B" ]} ].
Proof.
  split.
  - destruct (proj1 C4_deduplicator
                [take 3 ExerciseAPI.catalog; take 5 ExerciseAPI.catalog])
      as (uniq & Hm & Hu & _ & _ & _ & Hi & _).
    + repeat constructor; eexists; by split.
    + exists uniq. split; [done|]. split; [|done].
      rewrite Hu. by vm_compute.
  - apply (proj2 C4_deduplicator).
    + eexists; by split.
    + eexists; by split.
    + eexists; by split.
    + reflexivity.
    + discriminate.
Defined.

End DedupClaim.

(** ** The exercise source *)

Section ExerciseSource.

Import ExerciseAPI.

Lemma append_cons (c : ascii) (s1 s2 : string) :
  String c s1 +:+ s2 = String c (s1 +:+ s2).
Proof. reflexivity. Qed.

Lemma prefix_app (p s : string) :
  String.prefix p s = true ↔ ∃ post, s = p +:+ post.
Proof.
  revert s. induction p as [|a p IH]; intros s.
  - split; [by exists s|]. by destruct s.
  - destruct s as [|b s]; cbn.
    + split; [done|]. by intros [post ?].
    + destruct (Ascii.ascii_dec a b) as [->|Hne].
      * rewrite IH.
        split; intros [post Hp]; exists post; rewrite append_cons in *; congruence.
      * split; [done|]. intros [post Hp]. rewrite append_cons in Hp. congruence.
Qed.

(** [needle in s] holds exactly when [s] is some text, the needle, and
    some more text. *)
Lemma contains_spec (needle s : string) :
  PyStr.contains needle s = true ↔ ∃ pre post, s = pre +:+ needle +:+ post.
Proof.
  induction s as [|c s IH].
  - destruct needle as [|a needle]; cbn.
    + split; [|done]. intros _. by exists "", "".
    + split; [done|]. intros (pre & post & Hp). by destruct pre.
  - cbn [PyStr.contains]. rewrite orb_true_iff, prefix_app, IH. split.
    + intros [[post Hp]|(pre & post & Hp)].
      * by exists "", post.
      * exists (String c pre), post. rewrite append_cons. by rewrite Hp.
    + intros (pre & post & Hp). destruct pre as [|c' pre].
      * left. by exists post.
      * right. exists pre, post. rewrite append_cons in Hp. congruence.
Qed.

Lemma catalog_muscles (g : string) :
  Forall (λ ex : pydict,
            ∃ m, ex !! "muscle" = Some (VStr m)
                 ∧ muscle_matches g ex
                   = Ok (PyStr.contains (PyStr.lower g) (PyStr.lower m)))
         catalog.
Proof. repeat constructor; eexists; by split. Qed.

Lemma get_fallback_exercises_filter (g : string) :
  get_fallback_exercises (Some g)
  = Ok (filter (λ ex, PyStr.contains (PyStr.lower g) (PyStr.lower (muscle_of ex)) = true)
               catalog).
Proof.
  unfold get_fallback_exercises.
  destruct (truthy (VStr g)) eqn:Hg.
  - apply select_ok.
    eapply Forall_impl; [apply (catalog_muscles g)|].
    intros ex (m & Hm & ->). unfold muscle_of. by rewrite Hm.
  - by destruct g.
Qed.

Lemma fetch_failed http_get muscle_group :
  failed (http_get (muscle_param muscle_group)) →
  fetch_exercises_ninja_api http_get muscle_group
  = get_fallback_exercises muscle_group.
Proof.
  unfold fetch_exercises_ninja_api, failed.
  destruct (http_get _) as [e|status_code json_body]; [done|].
  intros [Hs|[e ->]].
  - by rewrite (proj2 (Z.eqb_neq _ _) Hs).
  - by destruct (status_code =? 200)%Z.
Qed.

End ExerciseSource.

Section ExerciseSourceClaim.

Import ExerciseAPI.

(** C9.  Whatever the muscle group, when the request raises, answers with
    a status other than 200 or carries a body that does not decode, the
    fetch returns a list and raises nothing: the whole local table of ten
    records when no group is given, and otherwise the records of the table,
    in table order, whose lower-cased muscle contains the lower-cased
    group. *)
Theorem C9_fetch_falls_back
    (http_get : option string → http_outcome) (muscle_group : option string) :
  failed (http_get (muscle_param muscle_group)) →
  ∃ l,
    fetch_exercises_ninja_api http_get muscle_group = Ok l
    ∧ List.length catalog = 10
    ∧ sublist l catalog
    ∧ match muscle_group with
      | None => l = catalog
      | Some g =>
          ∀ ex : pydict,
            ex ∈ l ↔
            ex ∈ catalog
            ∧ ∃ m, ex !! "muscle" = Some (VStr m)
                   ∧ ∃ pre post, PyStr.lower m = pre +:+ PyStr.lower g +:+ post
      end.
Proof.
  intros Hfail. rewrite (fetch_failed _ _ Hfail).
  destruct muscle_group as [g|].
  - rewrite get_fallback_exercises_filter. eexists.
    split; [done|]. split; [done|]. split; [apply sublist_filter|].
    intros ex. rewrite list_elem_of_filter, contains_spec. split.
    + intros [Hsub Hin]. split; [done|].
      pose proof (catalog_muscles g) as Hcat.
      apply (Forall_forall _ catalog) with (x := ex) in Hcat as (m & Hm & _); [|done].
      exists m. split; [done|]. unfold muscle_of in Hsub. by rewrite Hm in Hsub.
    + intros [Hin (m & Hm & Hsub)]. split; [|done].
      unfold muscle_of. by rewrite Hm.
  - exists catalog. by repeat split.
Qed.

Lemma C9_fetch_falls_back_witness :
  ∃ l,
    fetch_exercises_ninja_api (λ _, Response 429 (Ok [])) (Some "QUAD") = Ok l
    ∧ List.length catalog = 10
    ∧ sublist l catalog
    ∧ ∀ ex : pydict,
        ex ∈ l ↔
        ex ∈ catalog
        ∧ ∃ m, ex !! "muscle" = Some (VStr m)
               ∧ ∃ pre post, PyStr.lower m = pre +:+ PyStr.lower "QUAD" +:+ post.
Proof.
  apply (C9_fetch_falls_back (λ _, Response 429 (Ok [])) (Some "QUAD")).
  left. discriminate.
Defined.

Example fetch_quad_on_timeout :
  ∃ l,
    fetch_exercises_ninja_api (λ _, RequestRaises ServiceError) (Some "QUAD") = Ok l
    ∧ (λ ex : pydict, ex !! "name") <$> l = [Some (VStr "Squats"); Some (VStr "Lunges")].
Proof. eexists. split; [vm_compute; reflexivity|reflexivity]. Qed.

(** A decoded body of a 200 answer is returned as it is. *)
Lemma fetch_remote http_get muscle_group l :
  http_get (muscle_param muscle_group) = Response 200 (Ok l) →
  fetch_exercises_ninja_api http_get muscle_group = Ok l.
Proof. intros H. unfold fetch_exercises_ninja_api. by rewrite H. Qed.

End ExerciseSourceClaim.

(** ** The AI plan requester *)

Section RequesterFacts.

Import WorkoutAI.

Variable json_loads : string → result json.

Lemma rfind_ge (c : ascii) (s : string) : (-1 ≤ PyStr.rfind c s)%Z.
Proof.
  induction s as [|c' s IH]; cbn; [done|].
  destruct (PyStr.rfind c s =? -1)%Z; [|lia]. by destruct (Ascii.eqb c' c).
Qed.

(** The second test of line 296 is always true: [rfind] is at least -1,
    so [end_idx], which is one more, is never -1. *)
Lemma end_idx_test (plan_text : string) :
  negb (PyStr.rfind "}" plan_text + 1 =? -1)%Z = true.
Proof.
  pose proof (rfind_ge "}" plan_text).
  apply negb_true_iff, Z.eqb_neq. lia.
Qed.

(** Exactly one text is decoded for a reply. *)
Lemma generate_workout_plan_cases (model : option service)
    (user_profile : pydict) (exercises : list pydict) :
  generate_workout_plan json_loads model user_profile exercises
  = let fallback := FromFallback <$> _generate_fallback_plan user_profile exercises in
    match model with
    | None => fallback
    | Some generate_content =>
        match summary ← exercise_summary exercises;
              generate_content (prompt_profile user_profile) summary with
        | Raise _ => fallback
        | Ok text =>
            match json_loads (decoded_text (strip_fences (PyStr.strip text))) with
            | Ok plan => Ok (FromAI plan)
            | Raise _ => fallback
            end
        end
    end.
Proof.
  unfold generate_workout_plan. destruct model as [generate_content|]; [|done].
  cbn zeta. destruct (exercise_summary exercises) as [summary|]; [|done]. cbn.
  destruct (generate_content _ summary) as [text|]; [|done]. cbn.
  unfold parse_reply, decoded_text. rewrite end_idx_test, andb_true_r.
  destruct (PyStr.find "{" _ =? -1)%Z; cbn.
  - destruct (json_loads _); [done|].
    by destruct (_generate_fallback_plan user_profile exercises).
  - by destruct (json_loads _).
Qed.

(** Without a model, and whenever the service call raises, the result is
    that of the fallback generator on the same arguments. *)
Lemma requester_no_model (user_profile : pydict) (exercises : list pydict) :
  generate_workout_plan json_loads None user_profile exercises
  = FromFallback <$> _generate_fallback_plan user_profile exercises.
Proof. reflexivity. Qed.

Lemma requester_service_raises generate_content (user_profile : pydict)
    (exercises : list pydict) summary e :
  exercise_summary exercises = Ok summary →
  generate_content (prompt_profile user_profile) summary = Raise e →
  generate_workout_plan json_loads (Some generate_content) user_profile exercises
  = FromFallback <$> _generate_fallback_plan user_profile exercises.
Proof.
  intros Hs Hg. rewrite generate_workout_plan_cases. cbn zeta.
  rewrite Hs. cbn. by rewrite Hg.
Qed.

(** When an opening brace occurs and the slice does not decode, the
    fallback plan is returned: the whole text is not tried. *)
Lemma requester_no_second_attempt generate_content (user_profile : pydict)
    (exercises : list pydict) summary text e :
  exercise_summary exercises = Ok summary →
  generate_content (prompt_profile user_profile) summary = Ok text →
  let plan_text := strip_fences (PyStr.strip text) in
  PyStr.find "{" plan_text ≠ (-1)%Z →
  json_loads (PyStr.slice plan_text (PyStr.find "{" plan_text)
                          (PyStr.rfind "}" plan_text + 1)) = Raise e →
  generate_workout_plan json_loads (Some generate_content) user_profile exercises
  = FromFallback <$> _generate_fallback_plan user_profile exercises.
Proof.
  intros Hs Hg plan_text Hfind Hloads. rewrite generate_workout_plan_cases. cbn zeta.
  rewrite Hs. cbn. rewrite Hg. unfold decoded_text. fold plan_text.
  rewrite (proj2 (Z.eqb_neq _ _) Hfind). by rewrite Hloads.
Qed.

End RequesterFacts.

Section RequesterClaim.

Import WorkoutAI.

(** C8.  On the reply [[{}, {}]] the requester does not do what the claim
    says.  The text between the first opening and the last closing brace is
    [{}, {}], which does not decode; the whole text decodes to an array;
    the claim's second attempt would return that array, and the code
    returns the fallback plan. *)
Theorem C8_second_attempt_skipped :
  let plan_text := strip_fences (PyStr.strip "[{}, {}]") in
  plan_text = "[{}, {}]"
  ∧ PyStr.slice plan_text (PyStr.find "{" plan_text) (PyStr.rfind "}" plan_text + 1)
    = "{}, {}"
  ∧ MiniJson.loads "{}, {}" = Raise JSONDecodeError
  ∧ MiniJson.loads "[{}, {}]" = Ok (JArr [JObj []; JObj []])
  ∧ spec_parse_reply MiniJson.loads
      (FromFallback <$> _generate_fallback_plan sample_profile ExerciseAPI.catalog)
      plan_text
    = Ok (FromAI (JArr [JObj []; JObj []]))
  ∧ generate_workout_plan MiniJson.loads (Some array_reply)
      sample_profile ExerciseAPI.catalog
    = FromFallback <$> _generate_fallback_plan sample_profile ExerciseAPI.catalog
  ∧ generate_workout_plan MiniJson.loads (Some array_reply)
      sample_profile ExerciseAPI.catalog
    ≠ Ok (FromAI (JArr [JObj []; JObj []])).
Proof.
  cbn zeta. repeat split; try by vm_compute.
Qed.

(** A reply with a fenced object: the object between the braces is
    returned. *)
Example requester_fenced_reply :
  generate_workout_plan MiniJson.loads
    (Some (λ _ _, Ok "Here is your plan:
```json
{}
```"))
    sample_profile ExerciseAPI.catalog
  = Ok (FromAI (JObj [])).
Proof. by vm_compute. Qed.

(** A reply without an opening brace: the whole text is decoded. *)
Example requester_whole_text :
  generate_workout_plan MiniJson.loads (Some (λ _ _, Ok "[1, 2]"))
    sample_profile ExerciseAPI.catalog
  = Ok (FromAI (JArr [JNum 1; JNum 2])).
Proof. by vm_compute. Qed.

(** A reply that is not JSON, and a service that raises: the fallback
    plan. *)
Example requester_unparsable :
  generate_workout_plan MiniJson.loads (Some (λ _ _, Ok "Sorry, no plan today."))
    sample_profile ExerciseAPI.catalog
  = FromFallback <$> _generate_fallback_plan sample_profile ExerciseAPI.catalog.
Proof. by vm_compute. Qed.

Example requester_service_error :
  generate_workout_plan MiniJson.loads (Some (λ _ _, Raise ServiceError))
    sample_profile ExerciseAPI.catalog
  = FromFallback <$> _generate_fallback_plan sample_profile ExerciseAPI.catalog.
Proof. by vm_compute. Qed.

End RequesterClaim.

(** * Further properties of the code *)

(** ** The shape of every plan the fallback generator returns *)

Section FallbackShape.

Import WorkoutAI.

Lemma traverse_Forall2 {A B : Type} (f : A → result B) (l : list A) (ys : list B) :
  traverse f l = Ok ys → Forall2 (λ x y, f x = Ok y) l ys.
Proof.
  revert ys. induction l as [|x l IH]; intros ys H; cbn in H.
  - injection H as <-. constructor.
  - destruct (f x) as [y|] eqn:Hx; [|done]. cbn in H.
    destruct (traverse f l) as [ys'|]; [|done]. cbn in H.
    injection H as <-. constructor; auto.
Qed.

Lemma select_inv {A : Type} (p : A → result bool) (l r : list A) :
  select p l = Ok r → Forall (λ x, ∃ b, p x = Ok b) l.
Proof.
  revert r. induction l as [|x l IH]; intros r H; cbn in H; [constructor|].
  destruct (p x) as [b|] eqn:Hx; [|done]. cbn in H.
  destruct (select p l) as [r'|]; [|done].
  constructor; eauto.
Qed.

(** When the suitable set is computed, every record had a difficulty. *)
Lemma suitable_exercises_inv experience (exercises suitable : list pydict) :
  suitable_exercises experience exercises = Ok suitable →
  Forall (λ ex : pydict, is_Some (ex !! "difficulty")) exercises
  ∧ suitable = spec_suitable experience exercises.
Proof.
  intros H.
  assert (Forall (λ ex : pydict, is_Some (ex !! "difficulty")) exercises) as Hd.
  { unfold suitable_exercises in H.
    destruct (select _ exercises) as [r|] eqn:Hs; [|done].
    apply select_inv in Hs. eapply Forall_impl; [exact Hs|].
    intros ex [b Hb]. unfold is_suitable, dict_item in Hb.
    by destruct (ex !! "difficulty"). }
  split; [done|]. rewrite suitable_exercises_ok in H by done. congruence.
Qed.

(** Every returned plan has one entry per day from 1 to the number of days,
    built from one and the same list of planned exercises. *)
Lemma fallback_returned_shape (user_profile : pydict) (exercises : list pydict) plan :
  _generate_fallback_plan user_profile exercises = Ok plan →
  ∃ e n exs,
    profile_experience user_profile = VStr e
    ∧ profile_days user_profile = VInt n
    ∧ Forall (λ ex : pydict, is_Some (ex !! "difficulty")) exercises
    ∧ Forall2 (λ ex pe, planned (sets_reps_rest (VStr e)) ex = Ok pe)
              (if decide (0 < n)%Z then take 4 (spec_suitable (VStr e) exercises) else [])
              exs
    ∧ weekly_schedule plan
      = (λ d, (day_key d, {| focus := focus_of d; exercises := exs |})) <$> seqZ 1 n.
Proof.
  intros H. apply fallback_inv in H
    as (suitable & e & g & n & schedule & Hs & He & _ & Hn & Hloop & ->).
  rewrite He in Hs. apply suitable_exercises_inv in Hs as [Hd ->].
  cbn [weekly_schedule].
  destruct (traverse (planned (sets_reps_rest (VStr e)))
              (take 4 (spec_suitable (VStr e) exercises))) as [exs|err] eqn:Ht.
  - rewrite (for_each_fresh_keys _
               (λ d, (day_key d, {| focus := focus_of d; exercises := exs |}))) in Hloop.
    + injection Hloop as <-.
      destruct (decide (0 < n)%Z) as [Hpos|Hneg].
      * exists e, n, exs. rewrite decide_True by done.
        repeat split; try done. by apply traverse_Forall2.
      * exists e, n, []. rewrite decide_False by done.
        rewrite seqZ_nil by lia. by repeat split.
    + apply Forall_forall. intros d _. unfold day_workout. by rewrite Ht.
    + exact (day_keys_NoDup n).
  - destruct (decide (0 < n)%Z) as [Hpos|Hneg].
    + rewrite seqZ_cons in Hloop by done. cbn in Hloop.
      unfold day_workout in Hloop. by rewrite Ht in Hloop.
    + rewrite seqZ_nil in Hloop by lia. cbn in Hloop. injection Hloop as <-.
      exists e, n, []. rewrite decide_False by done.
      rewrite seqZ_nil by lia. by repeat split.
Qed.

End FallbackShape.

Section FallbackExtras.

Import WorkoutAI.

(** X1.  In every plan the generator returns, the entry at position [i]
    (from 0) has the key [day_(i+1)], and its focus is "Full Body" for the
    first three days and "Active Recovery" for every later day. *)
Theorem fallback_day_by_position (user_profile : pydict) (exercises : list pydict)
    plan (i : nat) key day :
  _generate_fallback_plan user_profile exercises = Ok plan →
  weekly_schedule plan !! i = Some (key, day) →
  key = "day_" +:+ pretty (Z.of_nat i + 1)%Z
  ∧ focus day = if decide (i < 3) then "Full Body" else "Active Recovery".
Proof.
  intros H Hi.
  apply fallback_returned_shape in H as (e & n & exs & _ & _ & _ & _ & Hsched).
  rewrite Hsched, list_lookup_fmap in Hi.
  destruct (seqZ 1 n !! i) as [d|] eqn:Hd; [|done].
  apply lookup_seqZ in Hd as [-> _]. cbn in Hi. injection Hi as <- <-.
  split; [unfold day_key; do 2 f_equal; lia|].
  cbn. unfold focus_of. case_decide.
  - by rewrite (proj2 (Z.leb_le _ _)) by lia.
  - by rewrite (proj2 (Z.leb_gt _ _)) by lia.
Qed.

Lemma fallback_day_by_position_witness :
  "day_4" = "day_" +:+ pretty (Z.of_nat 3 + 1)%Z
  ∧ focus {| focus := "Active Recovery";
             exercises := beginner_entry
                          <$> ["Push-ups"; "Squats"; "Plank"; "Bicep Curls"] |}
    = if decide (3 < 3) then "Full Body" else "Active Recovery".
Proof.
  eapply (fallback_day_by_position sample_profile ExerciseAPI.catalog).
  - reflexivity.
  - reflexivity.
Defined.

(** X2.  In every plan the generator returns, all days carry one and the
    same list of exercises, of at most four entries, each with the note
    "Focus on proper form". *)
Theorem fallback_days_repeat (user_profile : pydict) (exercises : list pydict) plan :
  _generate_fallback_plan user_profile exercises = Ok plan →
  ∃ exs,
    (List.length exs ≤ 4)%nat
    ∧ Forall (λ pe, notes pe = "Focus on proper form") exs
    ∧ Forall (λ day, day_exercises day = exs) (weekly_schedule plan).*2.
Proof.
  intros H.
  apply fallback_returned_shape in H as (e & n & exs & _ & _ & _ & Hexs & Hsched).
  exists exs. split; [|split].
  - apply Forall2_length in Hexs. rewrite <- Hexs.
    case_decide; [|cbn; lia]. rewrite length_take. lia.
  - clear Hsched. induction Hexs as [|ex pe ? ? Hpe _ IH]; constructor; [|done].
    unfold planned in Hpe.
    destruct (dict_item ex "name"); [|done]. cbn in Hpe. by injection Hpe as <-.
  - rewrite Hsched, <- list_fmap_compose. apply Forall_fmap, Forall_forall.
    by intros d _.
Qed.

Lemma fallback_days_repeat_witness :
  ∃ plan,
    _generate_fallback_plan example_profile example_exercises = Ok plan
    ∧ ∃ exs,
        (List.length exs ≤ 4)%nat
        ∧ Forall (λ pe, notes pe = "Focus on proper form") exs
        ∧ Forall (λ day, day_exercises day = exs) (weekly_schedule plan).*2.
Proof.
  eexists. split; [reflexivity|].
  apply (fallback_days_repeat example_profile example_exercises).
  reflexivity.
Defined.

End FallbackExtras.

Section FallbackSelection.

Import WorkoutAI.

Lemma spec_suitable_filter experience (exercises : list pydict) :
  experience ≠ VStr "advanced" →
  (∃ ex : pydict, ex ∈ exercises ∧ ex !! "difficulty" = Some experience) →
  spec_suitable experience exercises
  = filter (λ ex : pydict, ex !! "difficulty" = Some experience) exercises.
Proof.
  intros Hadv (ex & Hin & Hd). unfold spec_suitable. rewrite decide_False by done.
  destruct (filter _ exercises) as [|x l] eqn:Hf; [|done].
  assert (ex ∈ filter (λ ex : pydict, ex !! "difficulty" = Some experience) exercises)
    as Hex by by apply list_elem_of_filter.
  rewrite Hf in Hex. by apply elem_of_nil in Hex.
Qed.

Lemma spec_suitable_whole experience (exercises : list pydict) :
  experience = VStr "advanced"
  ∨ Forall (λ ex : pydict, ex !! "difficulty" ≠ Some experience) exercises →
  spec_suitable experience exercises = exercises.
Proof.
  intros [->|Hno]; unfold spec_suitable.
  - rewrite decide_True by done. by destruct exercises.
  - case_decide; [by destruct exercises|].
    destruct (filter _ exercises) as [|x l] eqn:Hf; [done|].
    assert (x ∈ filter (λ ex : pydict, ex !! "difficulty" = Some experience) exercises)
      as Hx by (rewrite Hf; by left).
    apply list_elem_of_filter in Hx as [Hd Hin].
    by apply (Forall_forall _ exercises) with (x := x) in Hno.
Qed.

(** The planned exercises of a returned plan are those of its days. *)
Lemma all_planned_shape (schedule : odict DaySchedule) (exs : list PlannedExercise)
    (days : list Z) (pe : PlannedExercise) plan :
  weekly_schedule plan
  = (λ d, (day_key d, {| focus := focus_of d; exercises := exs |})) <$> days →
  pe ∈ all_planned plan → pe ∈ exs.
Proof.
  intros Hs. unfold all_planned. rewrite Hs, <- list_fmap_compose.
  intros (day & Hpe & Hday)%list_elem_of_bind.
  apply list_elem_of_fmap in Hday as (d & -> & _). exact Hpe.
Qed.

(** X3.  When the experience is not "advanced" and some record has it as
    its difficulty, every exercise planned in a returned plan is named after
    an input record of exactly that difficulty. *)
Theorem fallback_respects_difficulty (user_profile : pydict)
    (exercises : list pydict) plan :
  _generate_fallback_plan user_profile exercises = Ok plan →
  profile_experience user_profile ≠ VStr "advanced" →
  (∃ ex : pydict,
     ex ∈ exercises ∧ ex !! "difficulty" = Some (profile_experience user_profile)) →
  Forall (λ pe,
            ∃ ex : pydict,
              ex ∈ exercises
              ∧ ex !! "difficulty" = Some (profile_experience user_profile)
              ∧ ex !! "name" = Some (name pe))
         (all_planned plan).
Proof.
  intros H Hadv Hsome.
  apply fallback_returned_shape in H as (e & n & exs & He & _ & _ & Hexs & Hsched).
  rewrite He in *. apply Forall_forall. intros pe Hpe.
  apply (all_planned_shape [] exs (seqZ 1 n)) in Hpe; [|done].
  apply list_elem_of_lookup in Hpe as [i Hi].
  destruct (Forall2_lookup_r _ _ _ _ _ Hexs Hi) as (ex & Hex & Hplanned).
  case_decide; [|by rewrite lookup_nil in Hex].
  rewrite spec_suitable_filter in Hex by done.
  apply lookup_take_Some in Hex as [Hex _].
  apply list_elem_of_lookup_2, list_elem_of_filter in Hex as [Hd Hin].
  exists ex. split; [done|]. split; [done|].
  unfold planned, dict_item in Hplanned.
  destruct (ex !! "name"); [|done]. cbn in Hplanned. by injection Hplanned as <-.
Qed.

Lemma fallback_respects_difficulty_witness :
  ∃ plan,
    _generate_fallback_plan sample_profile ExerciseAPI.catalog = Ok plan
    ∧ Forall (λ pe,
                ∃ ex : pydict,
                  ex ∈ ExerciseAPI.catalog
                  ∧ ex !! "difficulty" = Some (profile_experience sample_profile)
                  ∧ ex !! "name" = Some (name pe))
             (all_planned plan).
Proof.
  eexists. split; [reflexivity|].
  apply (fallback_respects_difficulty sample_profile ExerciseAPI.catalog).
  - reflexivity.
  - discriminate.
  - eexists. split; [by left|reflexivity].
Defined.

(** X4.  When the experience is "advanced", or no record has the experience
    as its difficulty, every day of a returned plan lists the first four
    records of the input, in input order, whatever their difficulty. *)
Theorem fallback_unfiltered (user_profile : pydict) (exercises : list pydict) plan :
  _generate_fallback_plan user_profile exercises = Ok plan →
  profile_experience user_profile = VStr "advanced"
  ∨ Forall (λ ex : pydict, ex !! "difficulty" ≠ Some (profile_experience user_profile))
           exercises →
  Forall (λ day,
            (λ pe, Some (name pe)) <$> day_exercises day
            = (λ ex : pydict, ex !! "name") <$> take 4 exercises)
         (weekly_schedule plan).*2.
Proof.
  intros H Hwhole.
  apply fallback_returned_shape in H as (e & n & exs & He & _ & _ & Hexs & Hsched).
  rewrite He in *. rewrite Hsched, <- list_fmap_compose.
  apply Forall_fmap, Forall_forall. intros d Hd. cbn.
  apply elem_of_seqZ in Hd. rewrite decide_True in Hexs by lia.
  rewrite spec_suitable_whole in Hexs by done.
  clear Hsched. induction Hexs as [|ex pe ? ? Hpe _ IH]; [done|].
  cbn. rewrite IH. f_equal.
  unfold planned, dict_item in Hpe.
  destruct (ex !! "name"); [|done]. cbn in Hpe. by injection Hpe as <-.
Qed.

Lemma fallback_unfiltered_witness :
  ∃ plan,
    _generate_fallback_plan (<["experience" := VStr "advanced"]> sample_profile)
                            ExerciseAPI.catalog = Ok plan
    ∧ Forall (λ day,
                (λ pe, Some (name pe)) <$> day_exercises day
                = Some <$> [VStr "Push-ups"; VStr "Squats"; VStr "Plank"; VStr "Lunges"])
             (weekly_schedule plan).*2.
Proof.
  eexists. split; [reflexivity|].
  apply (fallback_unfiltered (<["experience" := VStr "advanced"]> sample_profile)
           ExerciseAPI.catalog).
  - reflexivity.
  - left. reflexivity.
Defined.

End FallbackSelection.

Section FallbackErrors.

Import WorkoutAI.

Lemma traverse_raise_any {A B : Type} (f : A → result B) (l : list A) e :
  ¬ Forall (λ x, ∃ y, f x = Ok y) l →
  (∀ x e', f x = Raise e' → e' = e) →
  traverse f l = Raise e.
Proof.
  intros Hnot Honly. induction l as [|x l IH]; [by destruct Hnot|].
  cbn. destruct (f x) as [y|e'] eqn:Hx; cbn.
  - rewrite IH; [done|]. intros Hl. apply Hnot. constructor; eauto.
  - f_equal. by eapply Honly.
Qed.

(** X5.  With a number of days that is zero or negative, a well-typed
    profile and records that carry a difficulty, the generator returns a plan
    with an empty schedule; no name is read. *)
Theorem fallback_no_days (user_profile : pydict) (exercises : list pydict) (n : Z) :
  profile_ok user_profile →
  profile_days user_profile = VInt n →
  (n ≤ 0)%Z →
  Forall (λ ex : pydict, is_Some (ex !! "difficulty")) exercises →
  ∃ plan,
    _generate_fallback_plan user_profile exercises = Ok plan
    ∧ weekly_schedule plan = [].
Proof.
  intros Hp Hn Hle Hd.
  destruct (profile_ok_inv _ Hp) as (e & g & n' & He & Hg & Hn').
  unfold profile_experience, profile_goal, profile_days in *.
  unfold _generate_fallback_plan.
  rewrite suitable_exercises_ok by done. rewrite He, Hg, Hn. cbn.
  rewrite seqZ_nil by done. cbn. by eexists.
Qed.

Lemma fallback_no_days_witness :
  ∃ plan,
    _generate_fallback_plan (<["days_per_week" := VInt 0]> sample_profile)
                            [ {[ "difficulty" := VStr "beginner" ]} ] = Ok plan
    ∧ weekly_schedule plan = [].
Proof.
  apply (fallback_no_days (<["days_per_week" := VInt 0]> sample_profile)
           [ {[ "difficulty" := VStr "beginner" ]} ] 0).
  - by vm_compute.
  - reflexivity.
  - lia.
  - repeat constructor. by eexists.
Defined.

(** X6.  On records that carry a difficulty, a profile of the wrong type
    raises: an experience that is not a string, or failing that a goal that
    is not a string, raises an attribute error; failing both, a number of
    days that is not an integer raises a type error. *)
Theorem fallback_profile_errors (user_profile : pydict) (exercises : list pydict) :
  Forall (λ ex : pydict, is_Some (ex !! "difficulty")) exercises →
  (¬ is_str (profile_experience user_profile) →
   _generate_fallback_plan user_profile exercises = Raise AttributeError)
  ∧ (is_str (profile_experience user_profile) →
     ¬ is_str (profile_goal user_profile) →
     _generate_fallback_plan user_profile exercises = Raise AttributeError)
  ∧ (is_str (profile_experience user_profile) →
     is_str (profile_goal user_profile) →
     ¬ is_int (profile_days user_profile) →
     _generate_fallback_plan user_profile exercises = Raise TypeError).
Proof.
  intros Hd. unfold _generate_fallback_plan, profile_experience, profile_goal, profile_days.
  rewrite suitable_exercises_ok by done. cbn.
  destruct (dict_get user_profile "experience" _) as [| |e|];
    destruct (dict_get user_profile "goal" _) as [| |g|];
    destruct (dict_get user_profile "days_per_week" _) as [|n| |];
    cbn; repeat split; intros; tauto.
Qed.

Lemma fallback_profile_errors_witness :
  _generate_fallback_plan (<["experience" := VNone]> sample_profile) ExerciseAPI.catalog
  = Raise AttributeError
  ∧ _generate_fallback_plan (<["goal" := VInt 7]> sample_profile) ExerciseAPI.catalog
    = Raise AttributeError
  ∧ _generate_fallback_plan (<["days_per_week" := VStr "4"]> sample_profile)
                            ExerciseAPI.catalog
    = Raise TypeError.
Proof.
  assert (Forall (λ ex : pydict, is_Some (ex !! "difficulty")) ExerciseAPI.catalog) as Hd
    by (repeat constructor; by eexists).
  split; [|split].
  - apply (proj1 (fallback_profile_errors (<["experience" := VNone]> sample_profile)
                    ExerciseAPI.catalog Hd)).
    intros H. exact H.
  - apply (proj1 (proj2 (fallback_profile_errors (<["goal" := VInt 7]> sample_profile)
                           ExerciseAPI.catalog Hd))).
    + exact I.
    + intros H. exact H.
  - apply (proj2 (proj2 (fallback_profile_errors
                           (<["days_per_week" := VStr "4"]> sample_profile)
                           ExerciseAPI.catalog Hd))).
    + exact I.
    + exact I.
    + intros H. exact H.
Defined.

(** X7.  With a well-typed profile, at least one day and records that
    carry a difficulty, the generator returns a plan exactly when each of the
    first four suitable records has a name, and raises the key error of
    "name" otherwise: the names of the other records are never read. *)
Theorem fallback_name_precondition (user_profile : pydict) (exercises : list pydict)
    (n : Z) :
  profile_ok user_profile →
  profile_days user_profile = VInt n →
  (0 < n)%Z →
  Forall (λ ex : pydict, is_Some (ex !! "difficulty")) exercises →
  let selected := take 4 (spec_suitable (profile_experience user_profile) exercises) in
  (Forall (λ ex : pydict, is_Some (ex !! "name")) selected →
   ∃ plan, _generate_fallback_plan user_profile exercises = Ok plan)
  ∧ (¬ Forall (λ ex : pydict, is_Some (ex !! "name")) selected →
     _generate_fallback_plan user_profile exercises = Raise (KeyError "name")).
Proof.
  intros Hp Hn Hpos Hd selected. subst selected.
  destruct (profile_ok_inv _ Hp) as (e & g & n' & He & Hg & _).
  rewrite He.
  unfold profile_experience, profile_goal, profile_days in *.
  unfold _generate_fallback_plan.
  rewrite He, Hg, Hn. rewrite suitable_exercises_ok by done. cbn. split.
  - intros Hnames.
    rewrite (for_each_fresh_keys _
               (day_entry (VStr e) (spec_suitable (VStr e) exercises))).
    + by eexists.
    + apply Forall_forall. intros d _. by apply day_workout_ok.
    + exact (day_keys_NoDup n).
  - intros Hnot. rewrite seqZ_cons by done. cbn. unfold day_workout.
    rewrite (traverse_raise_any _ _ (KeyError "name")); [done|..].
    + intros Hall. apply Hnot. eapply Forall_impl; [exact Hall|].
      intros ex [pe Hpe]. unfold planned, dict_item in Hpe.
      by destruct (ex !! "name").
    + intros ex e' He'. unfold planned, dict_item in He'.
      destruct (ex !! "name"); cbn in He'; congruence.
Qed.

Lemma fallback_name_precondition_witness :
  (∃ plan,
     _generate_fallback_plan sample_profile
       (take 4 ExerciseAPI.catalog ++ [ {[ "difficulty" := VStr "advanced" ]} ])
     = Ok plan)
  ∧ _generate_fallback_plan sample_profile
      ({[ "difficulty" := VStr "beginner" ]} :: ExerciseAPI.catalog)
    = Raise (KeyError "name").
Proof.
  split.
  - apply (fallback_name_precondition sample_profile
             (take 4 ExerciseAPI.catalog ++ [ {[ "difficulty" := VStr "advanced" ]} ]) 4).
    + by vm_compute.
    + reflexivity.
    + lia.
    + repeat constructor; by eexists.
    + repeat constructor; by eexists.
  - apply (fallback_name_precondition sample_profile
             ({[ "difficulty" := VStr "beginner" ]} :: ExerciseAPI.catalog) 4).
    + by vm_compute.
    + reflexivity.
    + lia.
    + repeat constructor; by eexists.
    + intros Hall. apply Forall_cons in Hall as [[v Hv] _]. discriminate Hv.
Defined.

End FallbackErrors.

(** ** More on the de-duplication pass *)

Section DedupExtras.

Implicit Types (ex : pydict) (l before uniq : list pydict).

Local Abbreviation same_name ex := (λ ex' : pydict, ex' !! "name" = ex !! "name").

Lemma for_each_app {A S : Type} (f : S → A → result S) (acc : S) (l1 l2 : list A) :
  for_each f acc (l1 ++ l2) = acc' ← for_each f acc l1; for_each f acc' l2.
Proof.
  revert acc. induction l1 as [|x l1 IH]; intros acc; cbn; [done|].
  destruct (f acc x); cbn; [apply IH|done].
Qed.

Lemma dedup_step_inv st ex st' :
  dedup_step st ex = Ok st' → named ex.
Proof.
  unfold dedup_step, dict_item. intros H.
  destruct (ex !! "name") as [n|] eqn:Hn; [|done]. cbn in H.
  exists n. split; [done|]. by destruct n.
Qed.

Lemma for_each_dedup_inv l st st' :
  for_each dedup_step st l = Ok st' → Forall named l.
Proof.
  revert st. induction l as [|ex l IH]; intros st H; [constructor|].
  cbn in H. destruct (dedup_step st ex) as [st1|] eqn:H1; [|done].
  constructor; [by eapply dedup_step_inv|by eapply IH].
Qed.

(** The pass returns exactly when every record has a hashable name. *)
Lemma unique_exercises_inv l uniq :
  unique_exercises l = Ok uniq → Forall named l ∧ uniq = first_occurrences [] l.
Proof.
  intros H.
  assert (Forall named l) as Hl.
  { unfold unique_exercises in H.
    destruct (for_each dedup_step (∅, []) l) as [st|] eqn:Hs; [|done].
    by eapply for_each_dedup_inv. }
  split; [done|]. rewrite unique_exercises_ok in H by done. congruence.
Qed.

Lemma first_occurrences_covers before l ex :
  ex ∈ l → Exists (same_name ex) (before ++ first_occurrences before l).
Proof.
  revert before. induction l as [|x l IH]; intros before Hin; [by apply elem_of_nil in Hin|].
  cbn. apply elem_of_cons in Hin as [->|Hin].
  - case_decide as Hx.
    + apply Exists_app. by left.
    + apply Exists_app. right. by apply Exists_cons_hd.
  - specialize (IH (before ++ [x]) Hin).
    rewrite <- app_assoc in IH. cbn in IH.
    apply Exists_app in IH as [Hb|Hr]; [apply Exists_app; by left|].
    apply Exists_cons in Hr as [Hx|Hr].
    + case_decide as Hdup.
      * apply Exists_app. left.
        eapply Exists_impl; [exact Hdup|]. cbn. intros; congruence.
      * apply Exists_app. right. by apply Exists_cons_hd.
    + case_decide; apply Exists_app; right; [done|by apply Exists_cons_tl].
Qed.

(** X8.  Whenever the pass returns, no name is lost and nothing is added:
    the result is no longer than the input, and every input record has a
    record of the same name in the result. *)
Theorem dedup_keeps_every_name l uniq :
  unique_exercises l = Ok uniq →
  (List.length uniq ≤ List.length l)%nat
  ∧ ∀ ex, ex ∈ l → ∃ ex', ex' ∈ uniq ∧ ex' !! "name" = ex !! "name".
Proof.
  intros [_ ->]%unique_exercises_inv. split.
  - apply sublist_length, first_occurrences_sublist.
  - intros ex Hin.
    pose proof (first_occurrences_covers [] l ex Hin) as Hex.
    by apply Exists_exists in Hex.
Qed.

Lemma dedup_keeps_every_name_witness :
  (List.length (take 5 ExerciseAPI.catalog)
   ≤ List.length (take 3 ExerciseAPI.catalog ++ take 5 ExerciseAPI.catalog))%nat
  ∧ ∀ ex, ex ∈ take 3 ExerciseAPI.catalog ++ take 5 ExerciseAPI.catalog →
      ∃ ex', ex' ∈ take 5 ExerciseAPI.catalog ∧ ex' !! "name" = ex !! "name".
Proof.
  apply (dedup_keeps_every_name
           (take 3 ExerciseAPI.catalog ++ take 5 ExerciseAPI.catalog)
           (take 5 ExerciseAPI.catalog)).
  reflexivity.
Defined.

(** X9.  The first record that has no name makes the pass raise the key
    error of "name", and the first record whose name is a list makes it raise
    a type error: the pass has no guard of its own. *)
Theorem dedup_errors l1 ex l2 :
  Forall named l1 →
  (ex !! "name" = None →
   unique_exercises (l1 ++ ex :: l2) = Raise (KeyError "name"))
  ∧ (∀ names, ex !! "name" = Some (VList names) →
     unique_exercises (l1 ++ ex :: l2) = Raise TypeError).
Proof.
  intros Hl1. unfold unique_exercises.
  destruct (for_each_dedup l1 [] ∅ [] Hl1) as [seen Hs].
  { intros n. split; [set_solver|]. intros (ex' & Hin & _). by apply elem_of_nil in Hin. }
  rewrite for_each_app, Hs. cbn. unfold dedup_step, dict_item. split.
  - by intros ->.
  - by intros names ->.
Qed.

Lemma dedup_errors_witness :
  unique_exercises (take 2 ExerciseAPI.catalog
                    ++ {[ "muscle" := VStr "chest" ]} :: ExerciseAPI.catalog)
  = Raise (KeyError "name")
  ∧ unique_exercises (take 2 ExerciseAPI.catalog
                      ++ {[ "name" := VList ["Push-ups"; "Dips"] ]} :: ExerciseAPI.catalog)
    = Raise TypeError.
Proof.
  assert (Forall named (take 2 ExerciseAPI.catalog)) as Hn
    by (repeat constructor; eexists; by split).
  split.
  - apply (proj1 (dedup_errors (take 2 ExerciseAPI.catalog)
                    {[ "muscle" := VStr "chest" ]} ExerciseAPI.catalog Hn)).
    reflexivity.
  - apply (proj2 (dedup_errors (take 2 ExerciseAPI.catalog)
                    {[ "name" := VList ["Push-ups"; "Dips"] ]} ExerciseAPI.catalog Hn)
             ["Push-ups"; "Dips"]).
    reflexivity.
Defined.

(** X10.  Appending more records only appends to the result: what the pass
    returns for [l1 ++ l2] starts with what it returns for [l1], and the
    records that follow are records of [l2] whose names do not occur in
    [l1]. *)
Theorem dedup_append l1 l2 uniq :
  unique_exercises (l1 ++ l2) = Ok uniq →
  ∃ uniq1 rest,
    unique_exercises l1 = Ok uniq1
    ∧ uniq = uniq1 ++ rest
    ∧ sublist rest l2
    ∧ Forall (λ ex, ¬ Exists (same_name ex) l1) rest.
Proof.
  intros [Hl ->]%unique_exercises_inv.
  apply Forall_app in Hl as [Hl1 _].
  exists (first_occurrences [] l1), (first_occurrences l1 l2).
  split; [by apply unique_exercises_ok|].
  split; [apply first_occurrences_app|].
  split; [apply first_occurrences_sublist|].
  apply Forall_forall. intros ex Hin. by eapply first_occurrences_fresh.
Qed.

Lemma dedup_append_witness :
  ∃ uniq1 rest,
    unique_exercises (take 3 ExerciseAPI.catalog) = Ok uniq1
    ∧ take 5 ExerciseAPI.catalog = uniq1 ++ rest
    ∧ sublist rest (take 5 ExerciseAPI.catalog)
    ∧ Forall (λ ex, ¬ Exists (same_name ex) (take 3 ExerciseAPI.catalog)) rest.
Proof.
  apply (dedup_append (take 3 ExerciseAPI.catalog) (take 5 ExerciseAPI.catalog)
           (take 5 ExerciseAPI.catalog)).
  reflexivity.
Defined.

(** X11.  A list of named records whose names are pairwise distinct is
    returned as it is. *)
Theorem dedup_distinct_unchanged l :
  Forall named l →
  NoDup ((λ ex, ex !! "name") <$> l) →
  unique_exercises l = Ok l.
Proof.
  intros Hl Hnd. rewrite unique_exercises_ok by done. f_equal.
  apply first_occurrences_id; [done|].
  intros ex _ Hex. by apply Exists_nil in Hex.
Qed.

Lemma catalog_names_NoDup :
  NoDup ((λ ex : pydict, ex !! "name") <$> ExerciseAPI.catalog).
Proof. apply (bool_decide_unpack _). by vm_compute. Qed.

Lemma dedup_distinct_unchanged_witness :
  unique_exercises ExerciseAPI.catalog = Ok ExerciseAPI.catalog.
Proof.
  apply (dedup_distinct_unchanged ExerciseAPI.catalog).
  - exact named_catalog.
  - exact catalog_names_NoDup.
Defined.

End DedupExtras.

(** ** More on the exercise source *)

Section ExerciseSourceExtras.

Import ExerciseAPI.

Lemma get_fallback_exercises_total (muscle_group : option string) :
  ∃ l, get_fallback_exercises muscle_group = Ok l ∧ sublist l catalog.
Proof.
  destruct muscle_group as [g|].
  - rewrite get_fallback_exercises_filter. eexists. split; [done|apply sublist_filter].
  - by exists catalog.
Qed.

(** X12.  The fetch never raises, whatever the remote catalog does: it
    returns the decoded body of a 200 answer, and the local list in every
    other case. *)
Theorem fetch_never_raises
    (http_get : option string → http_outcome) (muscle_group : option string) :
  ∃ l,
    fetch_exercises_ninja_api http_get muscle_group = Ok l
    ∧ (http_get (muscle_param muscle_group) = Response 200 (Ok l)
       ∨ (failed (http_get (muscle_param muscle_group))
          ∧ get_fallback_exercises muscle_group = Ok l)).
Proof.
  destruct (get_fallback_exercises_total muscle_group) as (lf & Hlf & _).
  unfold fetch_exercises_ninja_api, failed.
  destruct (http_get _) as [e|status_code [l|e]].
  - exists lf. split; [done|]. by right.
  - destruct (status_code =? 200)%Z eqn:Hs.
    + apply Z.eqb_eq in Hs as ->. exists l. split; [done|]. by left.
    + apply Z.eqb_neq in Hs. exists lf. split; [done|]. right. split; [by left|done].
  - exists lf. split; [by destruct (status_code =? 200)%Z|].
    right. split; [right; by exists e|done].
Qed.

Lemma lower_empty (g : string) : PyStr.lower g = "" ↔ g = "".
Proof. by destruct g. Qed.

Lemma fetch_ignores_case_aux (http_get : option string → http_outcome) (g1 g2 : string) :
  PyStr.lower g1 = PyStr.lower g2 →
  fetch_exercises_ninja_api http_get (Some g1)
  = fetch_exercises_ninja_api http_get (Some g2).
Proof.
  intros Hl. unfold fetch_exercises_ninja_api.
  rewrite !get_fallback_exercises_filter, Hl.
  assert (muscle_param (Some g1) = muscle_param (Some g2)) as ->; [|done].
  unfold muscle_param. rewrite Hl.
  destruct g1, g2; try done.
Qed.

(** X13.  The fetch depends on the muscle group only through its
    lower-cased form: two groups that differ in case send the same request
    and get the same list, remote or local. *)
Theorem fetch_ignores_case (http_get : option string → http_outcome) (g1 g2 : string) :
  PyStr.lower g1 = PyStr.lower g2 →
  fetch_exercises_ninja_api http_get (Some g1)
  = fetch_exercises_ninja_api http_get (Some g2)
  ∧ get_fallback_exercises (Some g1) = get_fallback_exercises (Some g2).
Proof.
  intros Hl. split; [by apply fetch_ignores_case_aux|].
  by rewrite !get_fallback_exercises_filter, Hl.
Qed.

Lemma fetch_ignores_case_witness :
  fetch_exercises_ninja_api offline (Some "Quadriceps")
  = fetch_exercises_ninja_api offline (Some "QUADRICEPS")
  ∧ get_fallback_exercises (Some "Quadriceps") = get_fallback_exercises (Some "QUADRICEPS").
Proof.
  apply (fetch_ignores_case offline "Quadriceps" "QUADRICEPS").
  reflexivity.
Defined.

Lemma sublist_catalog_ok (l : list pydict) :
  sublist l catalog →
  Forall record_ok l ∧ Forall named l ∧ NoDup ((λ ex : pydict, ex !! "name") <$> l).
Proof.
  intros Hsub. split; [|split].
  - apply Forall_forall. intros ex Hin.
    apply (Forall_forall record_ok catalog); [apply catalog_ok|].
    by eapply elem_of_sublist.
  - apply Forall_forall. intros ex Hin.
    apply (Forall_forall named catalog); [apply named_catalog|].
    by eapply elem_of_sublist.
  - eapply sublist_NoDup; [apply catalog_names_NoDup|by apply fmap_sublist].
Qed.

(** X14.  Every list the local table yields, for any muscle group, has
    records with a difficulty and pairwise distinct names: the
    de-duplication pass returns it unchanged. *)
Theorem local_lists_are_unique (muscle_group : option string) :
  ∃ l,
    get_fallback_exercises muscle_group = Ok l
    ∧ Forall record_ok l
    ∧ NoDup ((λ ex : pydict, ex !! "name") <$> l)
    ∧ unique_exercises l = Ok l.
Proof.
  destruct (get_fallback_exercises_total muscle_group) as (l & Hl & Hsub).
  destruct (sublist_catalog_ok l Hsub) as (Hok & Hnamed & Hnd).
  exists l. repeat split; try done.
  rewrite unique_exercises_ok by done. f_equal.
  apply first_occurrences_id; [done|].
  intros ex _ Hex. by apply Exists_nil in Hex.
Qed.

End ExerciseSourceExtras.

(** ** More on the AI plan requester *)

Section RequesterExtras.

Import WorkoutAI.

Variable json_loads : string → result json.

Lemma requester_raise_inv (model : option service) (user_profile : pydict)
    (exercises : list pydict) e :
  generate_workout_plan json_loads model user_profile exercises = Raise e →
  _generate_fallback_plan user_profile exercises = Raise e.
Proof.
  rewrite generate_workout_plan_cases. cbn zeta. intros H.
  destruct (_generate_fallback_plan user_profile exercises) as [plan|e'] eqn:Hf.
  - destruct model as [generate_content|]; [|done].
    destruct (exercise_summary exercises) as [summary|]; [|done]. cbn in H.
    destruct (generate_content _ summary) as [text|]; [|done].
    by destruct (json_loads _).
  - destruct model as [generate_content|]; [|cbn in H; congruence].
    destruct (exercise_summary exercises) as [summary|]; [|cbn in H; congruence].
    cbn in H.
    destruct (generate_content _ summary) as [text|]; [|cbn in H; congruence].
    destruct (json_loads _); [done|cbn in H; congruence].
Qed.

(** X15.  No error of the service, of the decoder or of the summary
    surfaces: when the requester raises, the fallback generator raises the
    same exception on the same arguments. *)
Theorem requester_raises_only_with_fallback (model : option service)
    (user_profile : pydict) (exercises : list pydict) e :
  generate_workout_plan json_loads model user_profile exercises = Raise e →
  _generate_fallback_plan user_profile exercises = Raise e.
Proof. apply requester_raise_inv. Qed.

(** X16.  The result is all or nothing: a returned fallback plan is the one
    the fallback generator returns on the same arguments, and a returned AI
    value is what the decoder made of the one text decoded for the reply of
    the service. *)
Theorem requester_all_or_nothing (model : option service) (user_profile : pydict)
    (exercises : list pydict) v :
  generate_workout_plan json_loads model user_profile exercises = Ok v →
  match v with
  | FromFallback plan => _generate_fallback_plan user_profile exercises = Ok plan
  | FromAI j =>
      ∃ generate_content summary text,
        model = Some generate_content
        ∧ exercise_summary exercises = Ok summary
        ∧ generate_content (prompt_profile user_profile) summary = Ok text
        ∧ json_loads (decoded_text (strip_fences (PyStr.strip text))) = Ok j
  end.
Proof.
  rewrite generate_workout_plan_cases. cbn zeta. intros H.
  assert (∀ plan, FromFallback <$> _generate_fallback_plan user_profile exercises
                  = Ok (FromFallback plan) →
                  _generate_fallback_plan user_profile exercises = Ok plan) as Hfb.
  { intros plan. destruct (_generate_fallback_plan _ _); cbn; congruence. }
  assert (∀ j, FromFallback <$> _generate_fallback_plan user_profile exercises
               ≠ Ok (FromAI j)) as Hne.
  { intros j. by destruct (_generate_fallback_plan _ _). }
  destruct model as [generate_content|].
  - destruct (exercise_summary exercises) as [summary|] eqn:Hs; cbn in H.
    + destruct (generate_content _ summary) as [text|] eqn:Hg.
      * destruct (json_loads _) as [j|] eqn:Hj.
        -- injection H as <-. by exists generate_content, summary, text.
        -- destruct v; [by apply Hne in H|by apply Hfb].
      * destruct v; [by apply Hne in H|by apply Hfb].
    + destruct v; [by apply Hne in H|by apply Hfb].
  - destruct v; [by apply Hne in H|by apply Hfb].
Qed.

Lemma traverse_raise_elem {A B : Type} (f : A → result B) (l : list A) x e :
  x ∈ l → f x = Raise e → ∃ e', traverse f l = Raise e'.
Proof.
  induction l as [|y l IH]; intros Hin Hx; [by apply elem_of_nil in Hin|].
  cbn. destruct (f y) as [b|e'] eqn:Hy; cbn; [|by exists e'].
  apply elem_of_cons in Hin as [->|Hin]; [congruence|].
  destruct (IH Hin Hx) as [e' ->]. by exists e'.
Qed.

Lemma summary_line_raise (ex : pydict) k :
  k ∈ summary_keys → ex !! k = None → ∃ e, summary_line ex = Raise e.
Proof.
  unfold summary_keys, summary_line, dict_item. intros Hk Hnone.
  destruct (ex !! "name") eqn:H1; cbn; [|by eexists].
  destruct (ex !! "type") eqn:H2; cbn; [|by eexists].
  destruct (ex !! "muscle") eqn:H3; cbn; [|by eexists].
  destruct (ex !! "difficulty") eqn:H4; cbn; [|by eexists].
  destruct (ex !! "equipment") eqn:H5; cbn; [|by eexists].
  repeat (apply elem_of_cons in Hk as [->|Hk]; [congruence|]).
  by apply elem_of_nil in Hk.
Qed.

(** X17.  When one of the first twenty records lacks one of the five
    fields of the summary, the service is not consulted: whatever it would
    answer, the result is that of the fallback generator. *)
Theorem requester_summary_guard (generate_content : service) (user_profile : pydict)
    (exercises : list pydict) (ex : pydict) k :
  ex ∈ take 20 exercises →
  k ∈ summary_keys →
  ex !! k = None →
  generate_workout_plan json_loads (Some generate_content) user_profile exercises
  = FromFallback <$> _generate_fallback_plan user_profile exercises.
Proof.
  intros Hin Hk Hnone. rewrite generate_workout_plan_cases. cbn zeta.
  destruct (summary_line_raise ex k Hk Hnone) as [e He].
  destruct (traverse_raise_elem summary_line (take 20 exercises) ex e Hin He) as [e' He'].
  unfold exercise_summary. by rewrite He'.
Qed.

End RequesterExtras.

Section RequesterWitnesses.

Import WorkoutAI.

Lemma requester_raises_only_with_fallback_witness :
  _generate_fallback_plan sample_profile [record_without_difficulty]
  = Raise (KeyError "difficulty").
Proof.
  apply (requester_raises_only_with_fallback MiniJson.loads (Some array_reply)
           sample_profile [record_without_difficulty]).
  reflexivity.
Defined.

Lemma requester_all_or_nothing_witness :
  ∃ generate_content summary text,
    Some object_reply = Some generate_content
    ∧ exercise_summary ExerciseAPI.catalog = Ok summary
    ∧ generate_content (prompt_profile sample_profile) summary = Ok text
    ∧ MiniJson.loads (decoded_text (strip_fences (PyStr.strip text))) = Ok (JObj []).
Proof.
  apply (requester_all_or_nothing MiniJson.loads (Some object_reply)
           sample_profile ExerciseAPI.catalog (FromAI (JObj []))).
  reflexivity.
Defined.

Lemma requester_summary_guard_witness :
  generate_workout_plan MiniJson.loads (Some object_reply) sample_profile
    ({[ "name" := VStr "Jumping Jacks"; "difficulty" := VStr "beginner" ]}
     :: ExerciseAPI.catalog)
  = FromFallback
    <$> _generate_fallback_plan sample_profile
          ({[ "name" := VStr "Jumping Jacks"; "difficulty" := VStr "beginner" ]}
           :: ExerciseAPI.catalog).
Proof.
  apply (requester_summary_guard MiniJson.loads object_reply sample_profile
           ({[ "name" := VStr "Jumping Jacks"; "difficulty" := VStr "beginner" ]}
            :: ExerciseAPI.catalog)
           {[ "name" := VStr "Jumping Jacks"; "difficulty" := VStr "beginner" ]}
           "type").
  - by left.
  - unfold summary_keys. right. by left.
  - reflexivity.
Defined.

End RequesterWitnesses.

(** ** The text between the braces *)

Section Braces.

Import WorkoutAI.

Lemma append_nil (s : string) : "" +:+ s = s.
Proof. reflexivity. Qed.

Lemma length_append (a b : string) :
  String.length (a +:+ b) = String.length a + String.length b.
Proof. induction a as [|c a IH]; [done|]. rewrite append_cons. cbn. by rewrite IH. Qed.

Lemma append_assoc (a b c : string) : (a +:+ b) +:+ c = a +:+ (b +:+ c).
Proof. induction a as [|x a IH]; [done|]. rewrite !append_cons. by rewrite IH. Qed.

Lemma find_ge (c : ascii) (s : string) : (-1 ≤ PyStr.find c s)%Z.
Proof.
  induction s as [|a s IH]; cbn; [done|].
  destruct (Ascii.eqb a c); [done|].
  destruct (PyStr.find c s =? -1)%Z; lia.
Qed.

(** The first occurrence: a character absent from [pre] is first found
    right after it. *)
Lemma find_app_hit (c : ascii) (pre rest : string) :
  PyStr.find c pre = (-1)%Z →
  PyStr.find c (pre +:+ String c rest) = Z.of_nat (String.length pre).
Proof.
  induction pre as [|a pre IH]; intros Hpre.
  - rewrite append_nil. cbn. by rewrite Ascii.eqb_refl.
  - rewrite append_cons. cbn in *.
    destruct (Ascii.eqb a c); [done|].
    pose proof (find_ge c pre).
    destruct (PyStr.find c pre =? -1)%Z eqn:Hp; [|lia].
    apply Z.eqb_eq in Hp. rewrite IH by done.
    destruct (Z.of_nat (String.length pre) =? -1)%Z eqn:Hl; [apply Z.eqb_eq in Hl|]; lia.
Qed.

(** The last occurrence: a character absent from [post] is last found
    right before it. *)
Lemma rfind_app_hit (c : ascii) (s post : string) :
  PyStr.rfind c post = (-1)%Z →
  PyStr.rfind c (s +:+ String c post) = Z.of_nat (String.length s).
Proof.
  intros Hpost. induction s as [|a s IH].
  - rewrite append_nil. cbn. by rewrite Hpost, Ascii.eqb_refl.
  - rewrite append_cons. cbn. rewrite IH.
    destruct (Z.of_nat (String.length s) =? -1)%Z eqn:Hl; [apply Z.eqb_eq in Hl|]; lia.
Qed.

Lemma substring_prefix (x post : string) :
  substring 0 (String.length x) (x +:+ post) = x.
Proof.
  induction x as [|c x IH]; [rewrite append_nil; by destruct post|].
  rewrite append_cons. cbn. by rewrite IH.
Qed.

Lemma substring_app (pre x post : string) :
  substring (String.length pre) (String.length x) (pre +:+ x +:+ post) = x.
Proof.
  induction pre as [|c pre IH]; [rewrite append_nil; apply substring_prefix|].
  rewrite append_cons. cbn. exact IH.
Qed.

Lemma slice_app (pre x post : string) :
  PyStr.slice (pre +:+ x +:+ post)
    (Z.of_nat (String.length pre))
    (Z.of_nat (String.length pre + String.length x))
  = x.
Proof.
  unfold PyStr.slice, PyStr.clamp. rewrite !length_append.
  rewrite (proj2 (Z.ltb_ge _ _)) by lia.
  rewrite (proj2 (Z.ltb_ge _ _)) by lia.
  rewrite !Z.min_l by lia.
  replace (Z.to_nat (Z.of_nat (String.length pre))) with (String.length pre) by lia.
  replace (Z.to_nat (Z.of_nat (String.length pre + String.length x)
                     - Z.of_nat (String.length pre)))
    with (String.length x) by lia.
  apply substring_app.
Qed.

(** The text that is decoded when the reply has an object between other
    text. *)
Lemma decoded_text_braces (pre mid post : string) :
  PyStr.find "{" pre = (-1)%Z →
  PyStr.rfind "}" post = (-1)%Z →
  decoded_text (pre +:+ "{" +:+ mid +:+ "}" +:+ post) = "{" +:+ mid +:+ "}".
Proof.
  intros Hpre Hpost. unfold decoded_text.
  assert (PyStr.find "{" (pre +:+ "{" +:+ mid +:+ "}" +:+ post)
          = Z.of_nat (String.length pre)) as Hfind
    by by apply (find_app_hit "{" pre (mid +:+ "}" +:+ post)).
  assert (PyStr.rfind "}" (pre +:+ "{" +:+ mid +:+ "}" +:+ post)
          = Z.of_nat (String.length (pre +:+ "{" +:+ mid))) as Hrfind.
  { rewrite <- (rfind_app_hit "}" (pre +:+ "{" +:+ mid) post) by done.
    f_equal. rewrite !append_assoc. reflexivity. }
  rewrite Hfind, Hrfind.
  destruct (Z.of_nat (String.length pre) =? -1)%Z eqn:Hl; [apply Z.eqb_eq in Hl; lia|].
  replace (Z.of_nat (String.length (pre +:+ "{" +:+ mid)) + 1)%Z
    with (Z.of_nat (String.length pre + String.length ("{" +:+ mid +:+ "}"))).
  - replace (pre +:+ "{" +:+ mid +:+ "}" +:+ post)
      with (pre +:+ ("{" +:+ mid +:+ "}") +:+ post)
      by (by rewrite !append_assoc).
    apply slice_app.
  - rewrite !length_append. cbn. lia.
Qed.

End Braces.

Section BracesClaim.

Import WorkoutAI.

(** X18.  Text around an object is ignored: when the cleaned reply is some
    text without an opening brace, an object, and some text without a
    closing brace, the requester decodes exactly the object, braces
    included. *)
Theorem parse_reply_between_braces (json_loads : string → result json)
    (user_profile : pydict) (exercises : list pydict) (text pre mid post : string) :
  strip_fences (PyStr.strip text) = pre +:+ "{" +:+ mid +:+ "}" +:+ post →
  PyStr.find "{" pre = (-1)%Z →
  PyStr.rfind "}" post = (-1)%Z →
  parse_reply json_loads user_profile exercises text
  = plan ← json_loads ("{" +:+ mid +:+ "}"); Ok (FromAI plan).
Proof.
  intros Htext Hpre Hpost. unfold parse_reply. cbn zeta.
  rewrite end_idx_test, andb_true_r, Htext.
  pose proof (decoded_text_braces pre mid post Hpre Hpost) as Hdec.
  unfold decoded_text in Hdec.
  assert (PyStr.find "{" (pre +:+ "{" +:+ mid +:+ "}" +:+ post)
          = Z.of_nat (String.length pre)) as Hfind
    by by apply (find_app_hit "{" pre (mid +:+ "}" +:+ post)).
  destruct (PyStr.find "{" (pre +:+ "{" +:+ mid +:+ "}" +:+ post) =? -1)%Z eqn:Hf.
  - apply Z.eqb_eq in Hf. lia.
  - cbn. by rewrite Hdec.
Qed.

Lemma parse_reply_between_braces_witness :
  parse_reply MiniJson.loads sample_profile ExerciseAPI.catalog
    " Here is your plan: {} Enjoy! "
  = plan ← MiniJson.loads ("{" +:+ "" +:+ "}"); Ok (FromAI plan).
Proof.
  apply (parse_reply_between_braces MiniJson.loads sample_profile ExerciseAPI.catalog
           " Here is your plan: {} Enjoy! " "Here is your plan: " "" " Enjoy!").
  - reflexivity.
  - reflexivity.
  - reflexivity.
Defined.

End BracesClaim.

(** ** The generation step of [main] *)

Section GenerateClicked.

Import ExerciseAPI WorkoutAI Main.

Lemma fetch_total (http_get : option string → http_outcome) (muscle_group : option string) :
  ∃ l, fetch_exercises_ninja_api http_get muscle_group = Ok l.
Proof.
  destruct (get_fallback_exercises_total muscle_group) as (lf & Hlf & _).
  unfold fetch_exercises_ninja_api.
  destruct (http_get _) as [e|status_code [l|e]]; [by exists lf|..].
  - destruct (status_code =? 200)%Z; [by exists l|by exists lf].
  - exists lf. by destruct (status_code =? 200)%Z.
Qed.

Lemma all_exercises_from http_get (focus_areas : list string) (acc : list pydict) :
  ∃ lists,
    Forall2 (λ focus l, fetch_exercises_ninja_api http_get (Some focus) = Ok l)
            focus_areas lists
    ∧ for_each
        (λ acc focus,
           exercises ← fetch_exercises_ninja_api http_get (Some focus);
           Ok (acc ++ exercises))
        acc focus_areas
      = Ok (acc ++ List.concat lists).
Proof.
  revert acc. induction focus_areas as [|focus rest IH]; intros acc.
  - exists []. split; [constructor|]. cbn. by rewrite app_nil_r.
  - destruct (fetch_total http_get (Some focus)) as [l Hl].
    destruct (IH (acc ++ l)) as (lists & Hlists & Hrest).
    exists (l :: lists). split; [by constructor|].
    cbn. rewrite Hl. cbn. rewrite Hrest. by rewrite <- app_assoc.
Qed.

(** The lists fetched for the focus areas, appended in order. *)
Lemma all_exercises_lists http_get (focus_areas : list string) :
  ∃ lists,
    Forall2 (λ focus l, fetch_exercises_ninja_api http_get (Some focus) = Ok l)
            focus_areas lists
    ∧ all_exercises http_get focus_areas = Ok (List.concat lists).
Proof. apply (all_exercises_from http_get focus_areas []). Qed.

Lemma elem_of_concat {A : Type} (x : A) (ls : list (list A)) :
  x ∈ List.concat ls → ∃ l, x ∈ l ∧ l ∈ ls.
Proof.
  induction ls as [|l ls IH]; cbn; [by intros ?%elem_of_nil|].
  intros [Hl|Hls]%elem_of_app.
  - exists l. split; [done|by left].
  - destruct (IH Hls) as (l' & ? & ?). exists l'. split; [done|by right].
Qed.

Lemma all_exercises_offline http_get (focus_areas : list string) :
  (∀ q, failed (http_get q)) →
  ∃ all, all_exercises http_get focus_areas = Ok all ∧ all ⊆ catalog.
Proof.
  intros Hoff. destruct (all_exercises_lists http_get focus_areas) as (lists & Hl & ->).
  eexists. split; [done|].
  intros ex (l & Hin & Hl')%elem_of_concat.
  apply list_elem_of_lookup in Hl' as [i Hi].
  destruct (Forall2_lookup_r _ _ _ _ _ Hl Hi) as (focus & _ & Hfetch).
  rewrite fetch_failed in Hfetch by apply Hoff.
  destruct (get_fallback_exercises_total (Some focus)) as (l' & Hl' & Hsub).
  assert (l = l') as -> by congruence.
  by eapply elem_of_sublist.
Qed.

Lemma subseteq_catalog_ok (l : list pydict) :
  l ⊆ catalog → Forall record_ok l ∧ Forall named l.
Proof.
  intros Hsub. split; apply Forall_forall; intros ex Hin.
  - apply (Forall_forall record_ok catalog); [apply catalog_ok|by apply Hsub].
  - apply (Forall_forall named catalog); [apply named_catalog|by apply Hsub].
Qed.

Lemma user_profile_ok goal experience days_per_week duration equipment focus_areas :
  let p := user_profile goal experience days_per_week duration equipment focus_areas in
  profile_experience p = VStr experience
  ∧ profile_goal p = VStr goal
  ∧ profile_days p = VInt days_per_week.
Proof. by repeat split. Qed.

(** The de-duplicated list and the plan, with the remote catalog down. *)
Lemma generate_clicked_offline_aux (json_loads : string → result json) http_get
    (secret : string) (genai_model : string → service)
    goal experience days_per_week duration equipment focus_areas :
  (∀ q, failed (http_get q)) →
  let p := user_profile goal experience days_per_week duration equipment focus_areas in
  ∃ unique plan fallback_plan,
    generate_clicked json_loads http_get secret genai_model p focus_areas
    = Ok (unique, plan)
    ∧ unique ⊆ catalog
    ∧ NoDup ((λ ex : pydict, ex !! "name") <$> unique)
    ∧ _generate_fallback_plan p unique = Ok fallback_plan
    ∧ (secret = "" → plan = FromFallback fallback_plan).
Proof.
  intros Hoff p.
  destruct (all_exercises_offline http_get focus_areas Hoff) as (all & Hall & Hsub).
  destruct (subseteq_catalog_ok all Hsub) as [_ Hnamed].
  assert (first_occurrences [] all ⊆ catalog) as Hu.
  { intros ex Hin. apply Hsub.
    eapply elem_of_sublist; [exact Hin|apply first_occurrences_sublist]. }
  destruct (subseteq_catalog_ok _ Hu) as [Hok _].
  destruct (user_profile_ok goal experience days_per_week duration equipment focus_areas)
    as (He & Hg & Hn).
  pose proof (fallback_closed_form p (first_occurrences [] all) _ _ _ He Hg Hn Hok) as Hfb.
  unfold generate_clicked. rewrite Hall. cbn.
  rewrite unique_exercises_ok by done. cbn.
  destruct (generate_workout_plan json_loads (new_model None secret genai_model) p
              (first_occurrences [] all)) as [plan|e] eqn:Hplan.
  - eexists _, plan, _. split; [done|]. split; [done|].
    split; [apply first_occurrences_NoDup|]. split; [exact Hfb|].
    intros ->. cbn in Hplan. rewrite Hfb in Hplan. cbn in Hplan. congruence.
  - apply requester_raise_inv in Hplan. fold p in Hfb. congruence.
Qed.

(** X19.  With the remote catalog down, a click always yields a list and a
    plan, whatever the key, the service and the decoder (reading the secret
    and building the model are taken to succeed): the list stored is made of
    records of the local table with pairwise distinct names. *)
Theorem generate_clicked_offline (json_loads : string → result json) http_get
    (secret : string) (genai_model : string → service)
    goal experience days_per_week duration equipment focus_areas :
  (∀ q, failed (http_get q)) →
  ∃ unique plan,
    generate_clicked json_loads http_get secret genai_model
      (user_profile goal experience days_per_week duration equipment focus_areas)
      focus_areas
    = Ok (unique, plan)
    ∧ unique ⊆ catalog
    ∧ NoDup ((λ ex : pydict, ex !! "name") <$> unique).
Proof.
  intros Hoff.
  destruct (generate_clicked_offline_aux json_loads http_get secret genai_model
              goal experience days_per_week duration equipment focus_areas Hoff)
    as (unique & plan & _ & H & Hsub & Hnd & _).
  by exists unique, plan.
Qed.

Lemma generate_clicked_offline_witness :
  ∃ unique plan,
    generate_clicked MiniJson.loads offline "key" (λ _, array_reply)
      (user_profile "muscle_gain" "beginner" 4 45 ["body_only"] ["chest"; "legs"])
      ["chest"; "legs"]
    = Ok (unique, plan)
    ∧ unique ⊆ catalog
    ∧ NoDup ((λ ex : pydict, ex !! "name") <$> unique).
Proof.
  apply (generate_clicked_offline MiniJson.loads offline "key" (λ _, array_reply)).
  intros q. exact I.
Defined.



End GenerateClicked.

Section GenerateClickedErrors.

Import ExerciseAPI WorkoutAI Main.

Lemma unique_exercises_nameless (l1 : list pydict) (ex : pydict) (l2 : list pydict) :
  Forall named l1 → ex !! "name" = None →
  unique_exercises (l1 ++ ex :: l2) = Raise (KeyError "name").
Proof.
  intros Hl1 Hex. unfold unique_exercises.
  destruct (for_each_dedup l1 [] ∅ [] Hl1) as [seen Hs].
  { intros n. split; [set_solver|]. intros (ex' & Hin & _). by apply elem_of_nil in Hin. }
  rewrite for_each_app, Hs. cbn. unfold dedup_step, dict_item. by rewrite Hex.
Qed.

(** X21.  Nothing in the generation step catches what the de-duplication
    pass raises: when the remote catalog answers the first focus area with a
    list in which a record has no name, the click ends with the key error of
    "name", whatever the other answers, the key and the profile. *)
Theorem generate_clicked_nameless_record (json_loads : string → result json) http_get
    (secret : string) (genai_model : string → service) (profile : pydict)
    (focus : string) (rest : list string) (l1 : list pydict) (ex : pydict)
    (l2 : list pydict) :
  http_get (muscle_param (Some focus)) = Response 200 (Ok (l1 ++ ex :: l2)) →
  Forall named l1 →
  ex !! "name" = None →
  generate_clicked json_loads http_get secret genai_model profile (focus :: rest)
  = Raise (KeyError "name").
Proof.
  intros Hget Hl1 Hex.
  destruct (all_exercises_lists http_get (focus :: rest)) as (lists & Hl & Hall).
  apply Forall2_cons_inv_l in Hl as (l & ls & Hfetch & _ & ->).
  unfold fetch_exercises_ninja_api in Hfetch. rewrite Hget in Hfetch. cbn in Hfetch.
  injection Hfetch as <-.
  assert (unique_exercises (List.concat ((l1 ++ ex :: l2) :: ls))
          = Raise (KeyError "name")) as Hu.
  { change (List.concat ((l1 ++ ex :: l2) :: ls))
      with ((l1 ++ ex :: l2) ++ List.concat ls).
    rewrite <- app_assoc. by apply unique_exercises_nameless. }
  unfold generate_clicked, mbind, result_bind. rewrite Hall. cbv beta iota.
  by rewrite Hu.
Qed.

Lemma generate_clicked_nameless_record_witness :
  generate_clicked MiniJson.loads
    (λ _, Response 200 (Ok [ {[ "name" := VStr "Bench Press" ]};
                             {[ "muscle" := VStr "chest" ]} ]))
    "" (λ _, array_reply) sample_profile ["chest"; "legs"]
  = Raise (KeyError "name").
Proof.
  apply (generate_clicked_nameless_record MiniJson.loads
           (λ _, Response 200 (Ok [ {[ "name" := VStr "Bench Press" ]};
                                    {[ "muscle" := VStr "chest" ]} ]))
           "" (λ _, array_reply) sample_profile "chest" ["legs"]
           [ {[ "name" := VStr "Bench Press" ]} ] {[ "muscle" := VStr "chest" ]} []).
  - reflexivity.
  - repeat constructor. eexists. by split.
  - reflexivity.
Defined.


End GenerateClickedErrors.
